(** * Academic Stress EWS: the feature encoding and validation pipeline

    A shallow embedding of [src/desktop/app.py] (the Tk form) and of the parts
    of [src/streamlit/app.py] that load the feature order and run the
    prediction, with the properties of the encoding pipeline proved over it.

    Conventions.
    - A Python [str] is a Rocq [string]; text of the source outside ASCII
      (the en dash of some labels) is kept as its UTF-8 bytes.
    - A Python [dict] is an insertion-ordered association list ([dict]).
    - Code that can raise returns a [result]; a [try]/[except] is a [match]
      on the result of its body.
    - A Python [float] is an IEEE 754 binary64 value, as [spec_float] of the
      Standard Library with precision 53 and maximal exponent 1024.
    - The tables of the interpreter's Unicode database that [float] consults
      are a parameter ([PyFloat.unicode_db]): the properties hold for every
      such database, and the examples at the end use a part of the real
      one. *)

From Stdlib Require Import ZArith List String Ascii Bool Lia Permutation.
From Stdlib Require Import Floats.SpecFloat DecimalString.
Import ListNotations.

Local Open Scope string_scope.
Local Open Scope list_scope.
Local Open Scope Z_scope.

(** ** Exceptions and fallible computations *)

(** The classes of exception the modelled code meets.  All of them derive from
    Python's [Exception], so both a bare [except:] and [except Exception:]
    catch every one of them.  An exception outside [Exception]
    ([KeyboardInterrupt], [SystemExit]) comes from the user or the
    interpreter, not from this code; a handler [except Exception:] lets it
    through, and it is outside the model: what is proved of a call that
    returns, or of a failure that is caught, is proved for the exceptions of
    these classes. *)
Inductive exn : Type :=
  | ValueError
  | OverflowError
  | TypeError
  | KeyError (key : string)
  | AttributeError
  | FileNotFoundError
  | OSError
  | JSONDecodeError
  | ImportError
  | RuntimeError (msg : string)
  | OtherError (msg : string).

Inductive result (A : Type) : Type :=
  | Return (a : A)
  | Raise (e : exn).
Arguments Return {A} a.
Arguments Raise {A} e.

Definition bind {A B} (m : result A) (k : A -> result B) : result B :=
  match m with
  | Return a => k a
  | Raise e => Raise e
  end.

Notation "x <- m ;; k" := (bind m (fun x => k))
  (at level 61, m at next level, right associativity).

(** The value of [body], or [handler] when it raises. *)
Definition try_except {A} (body : result A) (handler : A) : A :=
  match body with
  | Return a => a
  | Raise _ => handler
  end.

(** ** Python's [float(str)] and [int(float)]

    [float] of a string follows CPython.  The spaces and decimal digits of
    other scripts are first rewritten to ASCII, by the tables of the
    interpreter's Unicode database; then underscores between digits are
    dropped, white space is stripped from both ends, and the rest must be, in
    full, a decimal literal or a spelling of infinity or NaN; the literal is
    rounded to the nearest binary64 value, ties to even.

    The Unicode tables belong to the interpreter, not to this repository, and
    change with its version: they are a parameter, [unicode_db], and what is
    proved holds for every such database.  A [string] stands for the Python
    [str] it is the UTF-8 encoding of. *)

Module PyFloat.

Definition prec : Z := 53.
Definition emax : Z := 1024.

Definition code (c : ascii) : Z := Z.of_nat (nat_of_ascii c).

(** [Py_ISSPACE]: the C-locale white space. *)
Definition Py_ISSPACE (c : ascii) : bool :=
  ((9 <=? code c) && (code c <=? 13)) || (code c =? 32).

Definition is_digit (c : ascii) : bool :=
  (48 <=? code c) && (code c <=? 57).

Definition digit_value (c : ascii) : Z := code c - 48.

(** [Py_TOLOWER] on ASCII letters. *)
Definition Py_TOLOWER (c : ascii) : ascii :=
  if (65 <=? code c) && (code c <=? 90)
  then ascii_of_nat (nat_of_ascii c + 32) else c.

Definition ascii_eqb (a b : ascii) : bool := Ascii.eqb a b.

Fixpoint list_ascii_eqb (l1 l2 : list ascii) : bool :=
  match l1, l2 with
  | [], [] => true
  | a :: l1, b :: l2 => ascii_eqb a b && list_ascii_eqb l1 l2
  | _, _ => false
  end.

(** The underscore pass of [_Py_string_to_number_with_underscores]: an
    underscore is dropped when it stands between two digits, and is an error
    anywhere else.  [prev] is the previous character, if any. *)
Fixpoint drop_underscores (prev : option ascii) (cs : list ascii)
  : option (list ascii) :=
  match cs with
  | [] =>
      match prev with
      | Some "_"%char => None
      | _ => Some []
      end
  | c :: cs' =>
      if ascii_eqb c "_" then
        match prev with
        | Some p => if is_digit p then drop_underscores (Some c) cs' else None
        | None => None
        end
      else
        match prev with
        | Some "_"%char =>
            if is_digit c
            then option_map (cons c) (drop_underscores (Some c) cs')
            else None
        | _ => option_map (cons c) (drop_underscores (Some c) cs')
        end
  end.

Fixpoint lstrip (cs : list ascii) : list ascii :=
  match cs with
  | c :: cs' => if Py_ISSPACE c then lstrip cs' else cs
  | [] => []
  end.

Definition rstrip (cs : list ascii) : list ascii := rev (lstrip (rev cs)).

(** The longest prefix of decimal digits, and what follows it. *)
Fixpoint span_digits (cs : list ascii) : list ascii * list ascii :=
  match cs with
  | c :: cs' =>
      if is_digit c
      then let '(ds, rest) := span_digits cs' in (c :: ds, rest)
      else ([], cs)
  | [] => ([], [])
  end.

Definition digits_value (ds : list ascii) : Z :=
  fold_left (fun acc c => 10 * acc + digit_value c) ds 0.

Fixpoint skip_zeros (ds : list ascii) : list ascii :=
  match ds with
  | c :: ds' => if ascii_eqb c "0" then skip_zeros ds' else ds
  | [] => []
  end.

Definition take_sign (cs : list ascii) : bool * list ascii :=
  match cs with
  | "-"%char :: cs' => (true, cs')
  | "+"%char :: cs' => (false, cs')
  | _ => (false, cs)
  end.

Definition MAX_DIGITS : Z := 1000000000.

(** A decimal literal read in full: the sign, the integer [M] made of all its
    digits and the power of ten [E], the literal denoting [M * 10^E]. *)
Record decimal := { dec_neg : bool; dec_M : Z; dec_E : Z }.

(** The optional exponent part; [None] when characters are left over, which
    [float] rejects since it wants the whole string consumed. *)
Definition parse_exponent (cs : list ascii) : option Z :=
  match cs with
  | [] => Some 0
  | c :: cs' =>
      if ascii_eqb c "e" || ascii_eqb c "E" then
        let '(eneg, cs'') := take_sign cs' in
        match span_digits cs'' with
        | ((_ :: _) as eds, []) =>
            Some (if eneg then - digits_value eds else digits_value eds)
        | _ => None
        end
      else None
  end.

(** The grammar of [_Py_dg_strtod]: sign, digits with an optional point and at
    least one digit, optional exponent. *)
Definition parse_decimal (cs : list ascii) : option decimal :=
  let '(neg, cs1) := take_sign cs in
  let '(ipart, cs2) := span_digits cs1 in
  let '(fpart, cs3) :=
    match cs2 with
    | "."%char :: cs2' => span_digits cs2'
    | _ => ([], cs2)
    end in
  let isig := skip_zeros ipart in
  let ndigits :=
    match isig with
    | [] => Z.of_nat (List.length (skip_zeros fpart))
    | _ => Z.of_nat (List.length isig) + Z.of_nat (List.length fpart)
    end in
  let fraclen := Z.of_nat (List.length fpart) in
  match ipart ++ fpart with
  | [] => None
  | ds =>
      if (MAX_DIGITS <? ndigits) || (MAX_DIGITS <? fraclen) then None
      else
        match parse_exponent cs3 with
        | Some e => Some {| dec_neg := neg; dec_M := digits_value ds;
                            dec_E := e - fraclen |}
        | None => None
        end
  end.

(** [_Py_parse_inf_or_nan], again on the whole string. *)
Definition parse_inf_or_nan (cs : list ascii) : option spec_float :=
  let '(neg, cs1) := take_sign cs in
  let low := map Py_TOLOWER cs1 in
  if list_ascii_eqb low (list_ascii_of_string "inf")
     || list_ascii_eqb low (list_ascii_of_string "infinity")
  then Some (S754_infinity neg)
  else if list_ascii_eqb low (list_ascii_of_string "nan")
  then Some S754_nan
  else None.

(** The binary64 value nearest to [M * 10^E] (ties to even); a magnitude too
    large becomes an infinity and one too small a signed zero, without
    error. *)
Definition round_decimal (d : decimal) : spec_float :=
  let M := dec_M d in
  let E := dec_E d in
  if M =? 0 then S754_zero (dec_neg d)
  else if 0 <=? E then
    binary_normalize prec emax (cond_Zopp (dec_neg d) (M * 10 ^ E)) 0 (dec_neg d)
  else
    SFdiv prec emax (S754_finite (dec_neg d) (Z.to_pos M) 0)
                    (S754_finite false (Z.to_pos (10 ^ (- E))) 0).

(** The two tables of the Unicode database that [float] consults, for the
    code points from 127 on: whether a character is white space, and the
    digit a decimal character stands for, [-1] for any other character. *)
Class unicode_db : Type := {
  Py_UNICODE_ISSPACE : Z -> bool;
  Py_UNICODE_TODECIMAL : Z -> Z
}.

Definition is_continuation (b : Z) : bool := (128 <=? b) && (b <? 192).

(** The code points of a UTF-8 text, [None] standing for a byte that begins
    no well-formed sequence (the encoding of a [str] has none). *)
Fixpoint utf8_decode (bs : list Z) : list (option Z) :=
  match bs with
  | [] => []
  | b0 :: r0 =>
      if b0 <? 128 then Some b0 :: utf8_decode r0
      else if (192 <=? b0) && (b0 <? 224) then
        match r0 with
        | b1 :: r1 =>
            if is_continuation b1
            then Some ((b0 - 192) * 64 + (b1 - 128)) :: utf8_decode r1
            else None :: utf8_decode r0
        | _ => None :: utf8_decode r0
        end
      else if (224 <=? b0) && (b0 <? 240) then
        match r0 with
        | b1 :: b2 :: r2 =>
            if is_continuation b1 && is_continuation b2
            then Some ((b0 - 224) * 4096 + (b1 - 128) * 64 + (b2 - 128))
                 :: utf8_decode r2
            else None :: utf8_decode r0
        | _ => None :: utf8_decode r0
        end
      else if (240 <=? b0) && (b0 <? 248) then
        match r0 with
        | b1 :: b2 :: b3 :: r3 =>
            if is_continuation b1 && is_continuation b2 && is_continuation b3
            then Some ((b0 - 240) * 262144 + (b1 - 128) * 4096
                       + (b2 - 128) * 64 + (b3 - 128))
                 :: utf8_decode r3
            else None :: utf8_decode r0
        | _ => None :: utf8_decode r0
        end
      else None :: utf8_decode r0
  end.

Definition ascii_of_code (z : Z) : ascii := ascii_of_nat (Z.to_nat z).

Definition is_ascii_text (cs : list ascii) : bool :=
  forallb (fun c => code c <? 128) cs.

Section WithUnicode.
Context {U : unicode_db}.

(** The loop of [_PyUnicode_TransformDecimalAndSpaceToASCII]: a character
    below 127 is kept, a space becomes [" "], a decimal digit its ASCII
    digit, and at any other character the text ends in ["?"]. *)
Fixpoint to_ascii (points : list (option Z)) : list ascii :=
  match points with
  | [] => []
  | None :: _ => ["?"%char]
  | Some ch :: points' =>
      if ch <? 127 then ascii_of_code ch :: to_ascii points'
      else if Py_UNICODE_ISSPACE ch then " "%char :: to_ascii points'
      else
        let decimal := Py_UNICODE_TODECIMAL ch in
        if decimal <? 0 then ["?"%char]
        else ascii_of_code (48 + decimal) :: to_ascii points'
  end.

(** [_PyUnicode_TransformDecimalAndSpaceToASCII]: an ASCII text is returned
    as it is. *)
Definition TransformDecimalAndSpaceToASCII (cs : list ascii) : list ascii :=
  if is_ascii_text cs then cs else to_ascii (utf8_decode (map code cs)).

(** [float(s)] for a string [s]. *)
Definition float_of_str (s : string) : result spec_float :=
  match drop_underscores None
          (TransformDecimalAndSpaceToASCII (list_ascii_of_string s)) with
  | None => Raise ValueError
  | Some cs =>
      let body := rstrip (lstrip cs) in
      match parse_decimal body with
      | Some d => Return (round_decimal d)
      | None =>
          match parse_inf_or_nan body with
          | Some f => Return f
          | None => Raise ValueError
          end
      end
  end.

End WithUnicode.

(** [int(f)] for a float [f]: the integer part, rounding toward zero. *)
Definition int_of_float (f : spec_float) : result Z :=
  match f with
  | S754_nan => Raise ValueError
  | S754_infinity _ => Raise OverflowError
  | S754_zero _ => Return 0
  | S754_finite neg m e => Return (cond_Zopp neg (Z.shiftl (Z.pos m) e))
  end.

End PyFloat.

(** From here to the end of the theorems, [U] is the Unicode database of the
    interpreter that runs the applications. *)
Section Pipeline.
Context {U : PyFloat.unicode_db}.

(** ** Python values and dictionaries *)

(** The values that flow through the pipeline. *)
Inductive pyval : Type :=
  | PyNone
  | PyStr (s : string)
  | PyInt (z : Z)
  | PyFloat (f : spec_float).

(** [v is None] *)
Definition is_None (v : pyval) : bool :=
  match v with
  | PyNone => true
  | _ => false
  end.

Section Dict.
Context {V : Type}.

(** A dictionary with string keys, in insertion order. *)
Definition dict : Type := list (string * V).

Fixpoint dict_get (d : dict) (k : string) : option V :=
  match d with
  | [] => None
  | (k', v) :: d' => if String.eqb k k' then Some v else dict_get d' k
  end.

(** [d[k] = v]: the value of an existing key is replaced where it stands, a
    new key goes to the end. *)
Fixpoint dict_set (d : dict) (k : string) (v : V) : dict :=
  match d with
  | [] => [(k, v)]
  | (k', v') :: d' =>
      if String.eqb k k' then (k', v) :: d' else (k', v') :: dict_set d' k v
  end.

(** [d[k]] *)
Definition dict_getitem (d : dict) (k : string) : result V :=
  match dict_get d k with
  | Some v => Return v
  | None => Raise (KeyError k)
  end.

Definition dict_keys (d : dict) : list string := map fst d.

(** The truth value of a dictionary: [if d:] *)
Definition dict_truthy (d : dict) : bool :=
  match d with
  | [] => false
  | _ :: _ => true
  end.
End Dict.
Arguments dict V : clear implicits.

(** [d.get(k)], whose default is [None]. *)
Definition dict_get_or_None (d : dict pyval) (k : string) : pyval :=
  match dict_get d k with
  | Some v => v
  | None => PyNone
  end.

(** A [for] loop whose body can raise, threading the variables it assigns. *)
Fixpoint for_each {S A} (body : S -> A -> result S) (l : list A) (s : S)
  : result S :=
  match l with
  | [] => Return s
  | a :: l' => s' <- body s a ;; for_each body l' s'
  end.

(** A list comprehension whose element expression can raise. *)
Fixpoint comprehension {A B} (f : A -> result B) (l : list A) : result (list B) :=
  match l with
  | [] => Return []
  | a :: l' => b <- f a ;; bs <- comprehension f l' ;; Return (b :: bs)
  end.

(** ** [float(x)], [int(x)] and [safe_cast_int] *)

(** [float(x)]: a string is parsed, an integer is rounded to the nearest
    float and is an error when too large, [None] is a type error. *)
Definition float_ (x : pyval) : result spec_float :=
  match x with
  | PyStr s => PyFloat.float_of_str s
  | PyInt z =>
      match binary_normalize PyFloat.prec PyFloat.emax z 0 false with
      | S754_infinity _ => Raise OverflowError
      | f => Return f
      end
  | PyFloat f => Return f
  | PyNone => Raise TypeError
  end.

(** [src/desktop/app.py], [safe_cast_int]:
    [try: return int(float(x))  except: return None] *)
Definition safe_cast_int (x : pyval) : result pyval :=
  match (f <- float_ x ;; PyFloat.int_of_float f) with
  | Return z => Return (PyInt z)
  | Raise _ => Return PyNone
  end.

(** ** The catalog of the desktop application *)

Definition REQUIRED_FEATURES : list string :=
  [ "school"; "sex"; "age"; "address"; "famsize"; "Pstatus"; "Medu"; "Fedu";
    "Mjob"; "Fjob"; "reason"; "guardian"; "traveltime"; "studytime"; "failures";
    "schoolsup"; "famsup"; "paid"; "activities"; "nursery"; "higher"; "internet";
    "romantic"; "famrel"; "freetime"; "goout"; "Dalc"; "Walc"; "health"; "absences";
    "G1"; "G2" ].

Definition same (names : list string) : dict pyval :=
  map (fun n => (n, PyStr n)) names.

Definition education : dict pyval :=
  [ ("0 - None", PyInt 0); ("1 - Primary", PyInt 1); ("2 - 5th–9th", PyInt 2);
    ("3 - Secondary", PyInt 3); ("4 - Higher", PyInt 4) ].

Definition job : dict pyval :=
  same [ "teacher"; "health"; "services"; "at_home"; "other" ].

Definition yes_no : dict pyval := [ ("yes", PyInt 1); ("no", PyInt 0) ].

Definition one_to_five : dict pyval :=
  [ ("1", PyInt 1); ("2", PyInt 2); ("3", PyInt 3); ("4", PyInt 4); ("5", PyInt 5) ].

(** [FIELD_INFO]: feature, label and the choices of a dropdown ([None] for a
    numeric field). *)
Definition FIELD_INFO : list (string * string * option (dict pyval)) :=
  [ ("school", "School", Some (same ["GP"; "MS"]));
    ("sex", "Sex", Some (same ["F"; "M"]));
    ("age", "Age", None);
    ("address", "Address", Some [("U (urban)", PyStr "U"); ("R (rural)", PyStr "R")]);
    ("famsize", "Family Size",
       Some [("GT3 (>=3)", PyStr "GT3"); ("LE3 (<3)", PyStr "LE3")]);
    ("Pstatus", "Parent Cohabitation",
       Some [("T (together)", PyStr "T"); ("A (apart)", PyStr "A")]);
    ("Medu", "Mother's Education", Some education);
    ("Fedu", "Father's Education", Some education);
    ("Mjob", "Mother's Job", Some job);
    ("Fjob", "Father's Job", Some job);
    ("reason", "Reason for School Choice",
       Some (same ["home"; "reputation"; "course"; "other"]));
    ("guardian", "Guardian", Some (same ["mother"; "father"; "other"]));
    ("traveltime", "Travel Time",
       Some [("1 - <15 min", PyInt 1); ("2 - 15–30 min", PyInt 2);
             ("3 - 30–60 min", PyInt 3); ("4 - >60 min", PyInt 4)]);
    ("studytime", "Weekly Study Time",
       Some [("1 - <2 hrs", PyInt 1); ("2 - 2–5 hrs", PyInt 2);
             ("3 - 5–10 hrs", PyInt 3); ("4 - >10 hrs", PyInt 4)]);
    ("failures", "Past Failures",
       Some [("0", PyInt 0); ("1", PyInt 1); ("2", PyInt 2); ("3", PyInt 3)]);
    ("schoolsup", "School Support", Some yes_no);
    ("famsup", "Family Support", Some yes_no);
    ("paid", "Paid Classes", Some yes_no);
    ("activities", "Activities", Some yes_no);
    ("nursery", "Nursery", Some yes_no);
    ("higher", "Wants Higher Edu", Some yes_no);
    ("internet", "Internet", Some yes_no);
    ("romantic", "Romantic", Some yes_no);
    ("famrel", "Family Relationship", Some one_to_five);
    ("freetime", "Free Time", Some one_to_five);
    ("goout", "Going Out", Some one_to_five);
    ("Dalc", "Workday Alcohol", Some one_to_five);
    ("Walc", "Weekend Alcohol", Some one_to_five);
    ("health", "Health", Some one_to_five);
    ("absences", "Absences", None);
    ("G1", "G1 (0–20)", None);
    ("G2", "G2 (0–20)", None) ].

(** [FIELD_INFO_MAP = {feat: (label, opts) for feat, label, opts in FIELD_INFO}] *)
Definition FIELD_INFO_MAP : dict (string * option (dict pyval)) :=
  fold_left (fun d '(feat, label, opts) => dict_set d feat (label, opts))
            FIELD_INFO [].

(** ** Text of numbers *)

(** [str(n)] for an integer. *)
Definition str_of_int (n : Z) : string :=
  DecimalString.NilZero.string_of_int (Z.to_int n).

Fixpoint zeros (n : nat) : string :=
  match n with
  | O => ""
  | S n' => String "0" (zeros n')
  end.

(** [num / den] rounded to the nearest integer, ties to even, for
    [0 <= num] and [0 < den]. *)
Definition div_nearest_even (num den : Z) : Z :=
  let q := num / den in
  match 2 * (num mod den) ?= den with
  | Lt => q
  | Gt => q + 1
  | Eq => if Z.even q then q else q + 1
  end.

(** [f"{x:.Nf}"] for a float [x] and [N = places > 0]: the decimal with
    [places] digits after the point nearest to the exact value of [x]. *)
Definition format_fixed (places : nat) (x : spec_float) : string :=
  let body (scaled : Z) :=
    let unit := 10 ^ Z.of_nat places in
    let frac := str_of_int (scaled mod unit) in
    (str_of_int (scaled / unit) ++ "."
       ++ zeros (places - String.length frac) ++ frac)%string in
  match x with
  | S754_nan => "nan"
  | S754_infinity neg => if neg then "-inf" else "inf"
  | S754_zero neg => ((if neg then "-" else "") ++ body 0)%string
  | S754_finite neg m e =>
      let scaled :=
        div_nearest_even (Z.pos m * 10 ^ Z.of_nat places * 2 ^ Z.max e 0)
                         (2 ^ Z.max (- e) 0) in
      ((if neg then "-" else "") ++ body scaled)%string
  end.

(** ** The collaborators: pandas and the fitted classifier *)

(** A one-row [DataFrame]: the column labels and the cells of the row, a
    missing cell being [None]. *)
Record frame := { columns : list string; row : list (option pyval) }.

(** [pd.DataFrame([payload], columns=names)] for a list [payload]. *)
Definition DataFrame_of_list (payload : list pyval) (names : list string)
  : result frame :=
  if (List.length payload =? List.length names)%nat
  then Return {| columns := names; row := map Some payload |}
  else Raise ValueError.

(** [pd.DataFrame([inputs], columns=names)] for a dictionary [inputs]. *)
Definition DataFrame_of_dict (inputs : dict pyval) (names : list string) : frame :=
  {| columns := names; row := map (dict_get inputs) names |}.

(** What the application asks of its environment at prediction time.
    [predict_proba X] stands for [float(MODEL.predict_proba(X)[:, 1][0])] and
    [predict X] for [int(MODEL.predict(X)[0])]; either can raise, an
    operation the model does not have raising [AttributeError]. *)
Record collaborators := {
  import_pandas : result unit;
  predict_proba : frame -> result spec_float;
  predict : frame -> result Z
}.

(** ** The desktop form and its state *)

(** An entry of [widget_vars]: [("dropdown", var, options_map)] or
    [("spin", var, (minval, maxval))], [var] being the text the widget's
    [StringVar] holds. *)
Inductive widget : Type :=
  | dropdown (var : string) (options_map : dict pyval)
  | spin (var : string) (minval maxval : Z).

(** The modal dialogs of [messagebox.showerror]: "Input Error" with its fixed
    text, and "Prediction error" with the exception it reports. *)
Inductive dialog : Type :=
  | InputError
  | PredictionError (e : exn).

(** The module-level state of [src/desktop/app.py]. *)
Record app := {
  MODEL : collaborators;
  FEATURE_ORDER : list string;
  widget_vars : dict widget;
  error_labels : dict string;
  pred_var : string;
  prob_var : string;
  dialogs : list dialog
}.

Definition with_widgets (g : app) (wv : dict widget) (el : dict string) : app :=
  {| MODEL := MODEL g; FEATURE_ORDER := FEATURE_ORDER g;
     widget_vars := wv; error_labels := el;
     pred_var := pred_var g; prob_var := prob_var g; dialogs := dialogs g |}.

Definition with_error_labels (g : app) (el : dict string) : app :=
  with_widgets g (widget_vars g) el.

Definition with_result (g : app) (pred prob : string) : app :=
  {| MODEL := MODEL g; FEATURE_ORDER := FEATURE_ORDER g;
     widget_vars := widget_vars g; error_labels := error_labels g;
     pred_var := pred; prob_var := prob; dialogs := dialogs g |}.

Definition showerror (g : app) (d : dialog) : app :=
  {| MODEL := MODEL g; FEATURE_ORDER := FEATURE_ORDER g;
     widget_vars := widget_vars g; error_labels := error_labels g;
     pred_var := pred_var g; prob_var := prob_var g;
     dialogs := dialogs g ++ [d] |}.

(** [add_dropdown]: the combobox starts on the first key of [options_map]. *)
Definition add_dropdown (g : app) (feature label_text : string)
    (options_map : dict pyval) : result app :=
  match dict_keys options_map with
  | [] => Raise (OtherError "IndexError")
  | first :: _ =>
      Return (with_widgets g
                (dict_set (widget_vars g) feature (dropdown first options_map))
                (dict_set (error_labels g) feature ""))
  end.

(** [add_spinbox]: the spinbox starts on [str(minval)]. *)
Definition add_spinbox (g : app) (feature label_text : string)
    (minval maxval : Z) : app :=
  with_widgets g
    (dict_set (widget_vars g) feature (spin (str_of_int minval) minval maxval))
    (dict_set (error_labels g) feature "").

(** The body of the loop that builds the form, one widget per feature. *)
Definition add_field (g : app) (feat : string) : result app :=
  let '(label, opts) :=
    match dict_get FIELD_INFO_MAP feat with
    | Some info => info
    | None => (feat, None)
    end in
  match opts with
  | None =>
      if String.eqb feat "age" then Return (add_spinbox g feat label 10 30)
      else if String.eqb feat "absences" then Return (add_spinbox g feat label 0 93)
      else if String.eqb feat "G1" || String.eqb feat "G2"
      then Return (add_spinbox g feat label 0 20)
      else Return (add_spinbox g feat label 0 100)
  | Some opts => add_dropdown g feat label opts
  end.

(** The state when the window opens, for a classifier and a feature order
    that is a list of names (see [names_of] below for the order as the file
    gives it). *)
Definition startup (M : collaborators) (order : list string) : result app :=
  for_each add_field order
    {| MODEL := M; FEATURE_ORDER := order; widget_vars := []; error_labels := [];
       pred_var := "—"; prob_var := "—"; dialogs := [] |}.

(** The user's side: typing [text] into the widget of [feat], or choosing it
    there ([var.set(text)] on the widget's variable). *)
Definition set_var (w : widget) (text : string) : widget :=
  match w with
  | dropdown _ options_map => dropdown text options_map
  | spin _ minval maxval => spin text minval maxval
  end.

Definition enter (g : app) (feat text : string) : app :=
  match dict_get (widget_vars g) feat with
  | Some w => with_widgets g (dict_set (widget_vars g) feat (set_var w text))
                           (error_labels g)
  | None => g
  end.

(** ** The encoding and validation pipeline *)

(** What [gather_and_map_inputs] returns second: the [errors] dictionary or
    the encoded list. *)
Inductive payload : Type :=
  | Errors (errors : dict string)
  | Vector (values : list pyval).

(** The body of the loop of [gather_and_map_inputs], on the pair of local
    dictionaries [(errors, mapped)]. *)
Definition gather_step (g : app) (st : dict string * dict pyval) (feat : string)
  : result (dict string * dict pyval) :=
  let '(errors, mapped) := st in
  w <- dict_getitem (widget_vars g) feat ;;
  match w with
  | dropdown var extra =>
      let val := var in
      let mapped_val := dict_get_or_None extra val in
      if is_None mapped_val
      then Return (dict_set errors feat "Choose a valid option", mapped)
      else Return (errors, dict_set mapped feat mapped_val)
  | spin var _ _ =>
      let val := var in
      val_i <- safe_cast_int (PyStr val) ;;
      if is_None val_i
      then Return (dict_set errors feat "Enter a number", mapped)
      else Return (errors, dict_set mapped feat val_i)
  end.

Definition gather_loop (g : app) : result (dict string * dict pyval) :=
  for_each (gather_step g) (FEATURE_ORDER g) ([], []).

(** [src/desktop/app.py], [gather_and_map_inputs] *)
Definition gather_and_map_inputs (g : app) : result (bool * payload) :=
  st <- gather_loop g ;;
  let '(errors, mapped) := st in
  if dict_truthy errors then Return (false, Errors errors)
  else
    values <- comprehension (dict_getitem mapped) (FEATURE_ORDER g) ;;
    Return (true, Vector values).

(** The [try] block of [predict_action]; [make_frame] is the construction of
    the [DataFrame] from the payload. *)
Definition run_model (g : app) (make_frame : result frame) : result app :=
  _ <- import_pandas (MODEL g) ;;
  X <- make_frame ;;
  let prob :=
    match predict_proba (MODEL g) X with
    | Return p => Some p
    | Raise _ => None
    end in
  pred <- predict (MODEL g) X ;;
  Return (with_result g
            (if pred =? 1 then "1 (High stress)" else "0 (Low stress)")
            (match prob with
             | Some p => format_fixed 4 p
             | None => "N/A"
             end)).

(** The [except Exception as e] of [predict_action]. *)
Definition report_failure (g : app) (r : result app) : app :=
  match r with
  | Return g' => g'
  | Raise e => showerror g (PredictionError e)
  end.

(** [src/desktop/app.py], [predict_action] *)
Definition predict_action (g : app) : result app :=
  let g := with_error_labels g (map (fun '(feat, _) => (feat, "")) (error_labels g)) in
  r <- gather_and_map_inputs g ;;
  match r with
  | (false, Errors errors) =>
      labels <- for_each
                  (fun labels '(feat, msg) =>
                     _ <- dict_getitem labels feat ;;
                     Return (dict_set labels feat msg))
                  errors (error_labels g) ;;
      Return (showerror (with_error_labels g labels) InputError)
  | (false, Vector _) => Raise AttributeError
  | (true, Vector values) =>
      Return (report_failure g
                (run_model g (DataFrame_of_list values (FEATURE_ORDER g))))
  | (true, Errors errors) =>
      let cells := map (fun '(feat, msg) => (feat, PyStr msg)) errors in
      Return (report_failure g
                (run_model g (Return (DataFrame_of_dict cells (FEATURE_ORDER g)))))
  end.

(** ** The Streamlit application: submitting the form *)

(** What the script shows on the page.  [st_error_about msg e] is
    [st.error(f"{msg}: {e}")], the text of an exception not being modelled. *)
Inductive st_event : Type :=
  | st_error (msg : string)
  | st_error_about (msg : string) (e : exn)
  | st_warning (msg : string)
  | st_metric (label value : string)
  | st_markdown (text : string)
  | st_json (inputs : dict pyval)
  | st_download_button (label : string)
  | st_exception (e : exn).

(** [src/streamlit/app.py], [validate_inputs], over the list [REQUIRED] (the
    same 32 names as [REQUIRED_FEATURES]). *)
Definition validate_inputs (inp : dict pyval) : list string :=
  flat_map (fun f => match dict_get inp f with
                     | Some _ => []
                     | None => [("Missing " ++ f)%string]
                     end)
           REQUIRED_FEATURES.

(** The [try] block under [if submitted:]. *)
Definition st_run_model (M : collaborators) (X : frame) (inputs : dict pyval)
  : result (list st_event) :=
  let prob :=
    match predict_proba M X with
    | Return p => Some p
    | Raise _ => None
    end in
  pred <- predict M X ;;
  Return [ st_metric "Prediction (class)"
             (if pred =? 1 then "High stress (1)" else "Low stress (0)");
           st_metric "Probability"
             (match prob with
              | Some p => format_fixed 3 p
              | None => "N/A"
              end);
           st_markdown "#### Input (sent to model)";
           st_json inputs;
           st_download_button "Download input JSON" ].

(** [src/streamlit/app.py], the code under [if submitted:], for the loaded
    [order] and the [inputs] the form collected. *)
Definition st_submitted (M : collaborators) (order : list string)
    (inputs : dict pyval) : list st_event :=
  match validate_inputs inputs with
  | (_ :: _) as errs =>
      [ st_error ("Validation errors: " ++ String.concat "; " errs) ]
  | [] =>
      let X := DataFrame_of_dict inputs order in
      match st_run_model M X inputs with
      | Return shown => shown
      | Raise e => [ st_error_about "Prediction failed" e; st_exception e ]
      end
  end.

(** ** Loading the feature order *)

(** What [json.load] can return. *)
#[local] Unset Elimination Schemes.
Inductive json : Type :=
  | JNull
  | JBool (b : bool)
  | JInt (z : Z)
  | JFloat (f : spec_float)
  | JString (s : string)
  | JArray (items : list json)
  | JObject (members : list (string * json)).
#[local] Set Elimination Schemes.

(** The feature-order file as the program finds it: absent, present but
    failing in [open] or [json.load], or loaded. *)
Inductive sidecar : Type :=
  | Missing
  | Unreadable (e : exn)
  | Loaded (v : json).

(** [needle in hay] for two strings. *)
Fixpoint is_substring (needle hay : string) : bool :=
  String.prefix needle hay
  || match hay with
     | EmptyString => false
     | String _ hay' => is_substring needle hay'
     end.

(** [f == x] for a string [f]. *)
Definition str_eq_json (f : string) (x : json) : bool :=
  match x with
  | JString s => String.eqb f s
  | _ => false
  end.

(** [f in v] for a string [f]: membership in a list, key of a dictionary,
    substring of a string, and a [TypeError] on anything else. *)
Definition py_in (f : string) (v : json) : result bool :=
  match v with
  | JArray items => Return (existsb (str_eq_json f) items)
  | JObject members => Return (existsb (fun m => String.eqb f (fst m)) members)
  | JString s => Return (is_substring f s)
  | JNull | JBool _ | JInt _ | JFloat _ => Raise TypeError
  end.

(** [all(f in v for f in names)] *)
Fixpoint all_in (names : list string) (v : json) : result bool :=
  match names with
  | [] => Return true
  | f :: names' =>
      b <- py_in f v ;;
      if b then all_in names' v else Return false
  end.

(** [REQUIRED_FEATURES.copy()] *)
Definition REQUIRED_FEATURES_copy : json := JArray (map JString REQUIRED_FEATURES).

(** [os.path.exists(path)] *)
Definition path_exists (file : sidecar) : bool :=
  match file with
  | Missing => false
  | Unreadable _ | Loaded _ => true
  end.

(** [with open(path, "r") as fh: json.load(fh)] *)
Definition json_load (file : sidecar) : result json :=
  match file with
  | Missing => Raise FileNotFoundError
  | Unreadable e => Raise e
  | Loaded v => Return v
  end.

(** [src/desktop/app.py], the statements that set [FEATURE_ORDER]. *)
Definition desktop_FEATURE_ORDER (file : sidecar) : result json :=
  if path_exists file then
    match (loaded <- json_load file ;;
           b <- all_in REQUIRED_FEATURES loaded ;;
           if negb b then Return REQUIRED_FEATURES_copy else Return loaded) with
    | Return order => Return order
    | Raise _ => Return REQUIRED_FEATURES_copy
    end
  else Return REQUIRED_FEATURES_copy.

(** [src/streamlit/app.py], [load_artifacts]; [model_file] is the outcome of
    [joblib.load(model_path)]. *)
Definition load_artifacts (model_file : result collaborators) (file : sidecar)
  : result (collaborators * json) :=
  model <- model_file ;;
  feature_order <-
    (if path_exists file then json_load file else Raise FileNotFoundError) ;;
  Return (model, feature_order).

(** How the Streamlit script gets past its loading code: stopped by
    [st.stop()] after an error message, or running with a feature order. *)
Inductive st_startup : Type :=
  | Stopped (shown : list st_event)
  | Running (model : collaborators) (order : json) (shown : list st_event).

Definition load_failed : string := "Failed to load model/features".
Definition order_mismatch : string :=
  "Loaded feature order does not exactly match expected required features. App will still attempt to proceed using feature_names.json order.".

(** [src/streamlit/app.py], from the call of [load_artifacts] to the check
    of the loaded order against [REQUIRED]. *)
Definition streamlit_load (model_file : result collaborators) (file : sidecar)
  : result st_startup :=
  match load_artifacts model_file file with
  | Raise e => Return (Stopped [ st_error_about load_failed e ])
  | Return (model, order) =>
      b <- all_in REQUIRED_FEATURES order ;;
      if negb b then Return (Running model order [ st_warning order_mismatch ])
      else Return (Running model order [])
  end.

(** The feature order as the loops [for feat in FEATURE_ORDER] of the two
    applications go through it, when it is a list of names: the names of a
    JSON array whose items are all strings.  [startup], [st_form] and
    [st_submitted] take the order in this form.  A loaded value of another
    shape (an array with an item that is no string, an object, a string) is
    not covered by them. *)
Definition name_of (x : json) : option string :=
  match x with
  | JString s => Some s
  | _ => None
  end.

Fixpoint names_of_items (items : list json) : option (list string) :=
  match items with
  | [] => Some []
  | x :: items' =>
      match name_of x, names_of_items items' with
      | Some s, Some names => Some (s :: names)
      | _, _ => None
      end
  end.

Definition names_of (v : json) : option (list string) :=
  match v with
  | JArray items => names_of_items items
  | _ => None
  end.

(** ** Notions used to state the properties *)

(** Every feature of the order has its entry in [widget_vars], which is how
    the loop that builds the form leaves it. *)
Definition has_widget (g : app) (feat : string) : bool :=
  match dict_get (widget_vars g) feat with
  | Some _ => true
  | None => false
  end.

Definition form_ok (g : app) : bool := forallb (has_widget g) (FEATURE_ORDER g).

(** The encoded value of a field that validates: the choice a dropdown's text
    maps to, or the integer a spinbox's text casts to. *)
Definition encoded_value (w : widget) : option pyval :=
  match w with
  | dropdown var extra =>
      match dict_get extra var with
      | Some PyNone | None => None
      | Some v => Some v
      end
  | spin var _ _ =>
      match safe_cast_int (PyStr var) with
      | Return (PyInt z) => Some (PyInt z)
      | _ => None
      end
  end.

(** The message of a field that does not validate. *)
Definition error_message (w : widget) : string :=
  match w with
  | dropdown _ _ => "Choose a valid option"
  | spin _ _ _ => "Enter a number"
  end.

Definition field_value (g : app) (feat : string) : option pyval :=
  match dict_get (widget_vars g) feat with
  | Some w => encoded_value w
  | None => None
  end.

Definition field_error (g : app) (feat : string) : option string :=
  match dict_get (widget_vars g) feat with
  | Some w =>
      match encoded_value w with
      | Some _ => None
      | None => Some (error_message w)
      end
  | None => None
  end.

Definition fails (g : app) (feat : string) : bool :=
  match field_error g feat with
  | Some _ => true
  | None => false
  end.

(** The choices the catalog gives a feature: [None] for a numeric feature and
    for a feature the catalog does not know. *)
Definition catalog_choices (feat : string) : option (dict pyval) :=
  match dict_get FIELD_INFO_MAP feat with
  | Some (_, opts) => opts
  | None => None
  end.

(** The widget of a feature is of the kind the catalog says: a dropdown over
    the choices of a categorical feature, a spinbox otherwise. *)
Definition widget_matches (feat : string) (w : widget) : Prop :=
  match catalog_choices feat, w with
  | Some opts, dropdown _ options_map => options_map = opts
  | None, spin _ _ _ => True
  | _, _ => False
  end.

Definition kinds_ok (g : app) : Prop :=
  forall feat w, dict_get (widget_vars g) feat = Some w -> widget_matches feat w.

Definition validates (g : app) (feat : string) : bool :=
  match field_value g feat with
  | Some _ => true
  | None => false
  end.

(** The exact value of a finite float is [float_num / float_den]. *)
Definition float_num (neg : bool) (m : positive) (e : Z) : Z :=
  cond_Zopp neg (Z.pos m * 2 ^ Z.max e 0).

Definition float_den (e : Z) : Z := 2 ^ Z.max (- e) 0.

(** A feature order that the sidecar file does not give: the file is absent,
    cannot be read or parsed, or lacks a required name. *)
Definition omits_required (v : json) : Prop :=
  exists f, In f REQUIRED_FEATURES /\ py_in f v = Return false.

Definition degraded (file : sidecar) : Prop :=
  match file with
  | Missing | Unreadable _ => True
  | Loaded v => omits_required v
  end.

(** The silent fallback, for the Streamlit script: it runs on the required
    order and shows nothing. *)
Definition st_falls_back (outcome : result st_startup) : Prop :=
  exists model, outcome = Return (Running model REQUIRED_FEATURES_copy []).

(** ** Sample collaborators and forms *)

(** A part of the Unicode database, for the examples: the white space above
    ASCII, and the decimal digits of two scripts, Arabic-Indic (from U+0660)
    and fullwidth (from U+FF10). *)
Definition sample_unicode : PyFloat.unicode_db :=
  {| PyFloat.Py_UNICODE_ISSPACE := fun ch =>
       (ch =? 133) || (ch =? 160) || (ch =? 5760)
       || ((8192 <=? ch) && (ch <=? 8202))
       || (ch =? 8232) || (ch =? 8233) || (ch =? 8239) || (ch =? 8287)
       || (ch =? 12288);
     PyFloat.Py_UNICODE_TODECIMAL := fun ch =>
       if (1632 <=? ch) && (ch <=? 1641) then ch - 1632
       else if (65296 <=? ch) && (ch <=? 65305) then ch - 65296
       else -1 |}.

(** A classifier that answers class 1 with probability 0.8125. *)
Definition sample_model : collaborators :=
  {| import_pandas := Return tt;
     predict_proba := fun _ => Return (S754_finite false 13 (-4));
     predict := fun _ => Return 1 |}.

(** A classifier without [predict_proba]. *)
Definition label_only_model : collaborators :=
  {| import_pandas := Return tt;
     predict_proba := fun _ => Raise AttributeError;
     predict := fun _ => Return 0 |}.

Definition blank (M : collaborators) (order : list string) : app :=
  {| MODEL := M; FEATURE_ORDER := order; widget_vars := []; error_labels := [];
     pred_var := ""; prob_var := ""; dialogs := [] |}.

(** The form of the required features as it opens. *)
Definition opened (M : collaborators) : app :=
  try_except (startup M REQUIRED_FEATURES) (blank M REQUIRED_FEATURES).

(** A feature order without ["G2"]. *)
Definition order_without_G2 : json :=
  JArray (map JString (removelast REQUIRED_FEATURES)).

(** ** The rest of the desktop application: clearing the form *)

(** The text [clear_form] puts back into a widget: the first key of a
    dropdown's choices ([list(extra.keys())[0]]), or [str(extra[0])], the
    lower bound of a spinbox. *)
Definition default_text (w : widget) : result string :=
  match w with
  | dropdown _ extra =>
      match dict_keys extra with
      | [] => Raise (OtherError "IndexError")
      | first :: _ => Return first
      end
  | spin _ minval _ => Return (str_of_int minval)
  end.

(** The body of the loop of [clear_form], on the item [(feat, w)] of
    [widget_vars]. *)
Definition clear_step (st : dict widget * dict string) (item : string * widget)
  : result (dict widget * dict string) :=
  let '(wv, labels) := st in
  let '(feat, w) := item in
  text <- default_text w ;;
  _ <- dict_getitem labels feat ;;
  Return (dict_set wv feat (set_var w text), dict_set labels feat "").

(** [src/desktop/app.py], [clear_form] *)
Definition clear_form (g : app) : result app :=
  st <- for_each clear_step (widget_vars g) (widget_vars g, error_labels g) ;;
  Return (with_widgets g (fst st) (snd st)).

(** A run of edits by the user, each the typing of a text into a widget. *)
Definition type_in (g : app) (edits : list (string * string)) : app :=
  fold_left (fun g '(feat, text) => enter g feat text) edits g.

(** ** The rest of the Streamlit application: the form *)

(** [FIELD_INFO] of [src/streamlit/app.py]: a dictionary from the feature to
    its label and choices. *)
Definition ST_FIELD_INFO : dict (string * option (dict pyval)) :=
  [ ("school", ("School", Some (same ["GP"; "MS"])));
    ("sex", ("Sex", Some (same ["F"; "M"])));
    ("age", ("Age (years)", None));
    ("address", ("Address", Some [("U (urban)", PyStr "U"); ("R (rural)", PyStr "R")]));
    ("famsize", ("Family Size",
       Some [("GT3 (>=3)", PyStr "GT3"); ("LE3 (<3)", PyStr "LE3")]));
    ("Pstatus", ("Parent status",
       Some [("T (together)", PyStr "T"); ("A (apart)", PyStr "A")]));
    ("Medu", ("Mother's Education", Some education));
    ("Fedu", ("Father's Education", Some education));
    ("Mjob", ("Mother's Job", Some job));
    ("Fjob", ("Father's Job", Some job));
    ("reason", ("Reason for school",
       Some (same ["home"; "reputation"; "course"; "other"])));
    ("guardian", ("Guardian", Some (same ["mother"; "father"; "other"])));
    ("traveltime", ("Travel time",
       Some [("1 - <15 min", PyInt 1); ("2 - 15–30 min", PyInt 2);
             ("3 - 30–60 min", PyInt 3); ("4 - >60 min", PyInt 4)]));
    ("studytime", ("Study time",
       Some [("1 - <2 hrs", PyInt 1); ("2 - 2–5 hrs", PyInt 2);
             ("3 - 5–10 hrs", PyInt 3); ("4 - >10 hrs", PyInt 4)]));
    ("failures", ("Past failures",
       Some [("0", PyInt 0); ("1", PyInt 1); ("2", PyInt 2); ("3", PyInt 3)]));
    ("schoolsup", ("School support", Some yes_no));
    ("famsup", ("Family support", Some yes_no));
    ("paid", ("Extra paid classes", Some yes_no));
    ("activities", ("Activities", Some yes_no));
    ("nursery", ("Attended nursery", Some yes_no));
    ("higher", ("Wants higher edu", Some yes_no));
    ("internet", ("Internet at home", Some yes_no));
    ("romantic", ("In romantic relationship", Some yes_no));
    ("famrel", ("Family relation (1=bad → 5=excellent)", Some one_to_five));
    ("freetime", ("Free time (1→5)", Some one_to_five));
    ("goout", ("Go out with friends (1→5)", Some one_to_five));
    ("Dalc", ("Workday alcohol (1→5)", Some one_to_five));
    ("Walc", ("Weekend alcohol (1→5)", Some one_to_five));
    ("health", ("Health (1→5)", Some one_to_five));
    ("absences", ("Absence count (0–93)", None));
    ("G1", ("Grade G1 (0–20)", None));
    ("G2", ("Grade G2 (0–20)", None)) ].

(** What the user has done to the widgets of the page when the script runs:
    the number in a numeric input and the option picked in a select box,
    [None] for a widget left as it first shows. *)
Record st_answers := {
  number : string -> option Z;
  selected : string -> option string
}.

(** [c.number_input(label, min_value, max_value, value, step=1, key=feat)]:
    the user's number, or [value] for a widget left alone.  The widget
    itself keeps the number between the bounds it is given. *)
Definition number_input (a : st_answers) (feat : string)
    (bounds : option (Z * Z)) (value : Z) : pyval :=
  match number a feat with
  | Some n => PyInt n
  | None => PyInt value
  end.

(** [c.selectbox(label, opts_list, index=0, key=feat)]: the option picked, or
    the first one for a widget left alone; [None] when there is none. *)
Definition selectbox (a : st_answers) (feat : string) (opts_list : list string)
  : option string :=
  match selected a feat with
  | Some sel => Some sel
  | None => hd_error opts_list
  end.

(** The body of the loop that builds the form; [inputs] is the dictionary
    being filled and [shown] the warnings so far.  Streamlit refuses a
    second widget with a key already in use. *)
Definition st_field (a : st_answers)
    (st : dict pyval * list st_event) (feat : string)
  : result (dict pyval * list st_event) :=
  let '(inputs, shown) := st in
  let '(label, opts, shown) :=
    match dict_get ST_FIELD_INFO feat with
    | None =>
        (feat, None,
         shown ++ [ st_warning ("Missing UI mapping for feature: " ++ feat) ])
    | Some (label, opts) => (label, opts, shown)
    end in
  match dict_get inputs feat with
  | Some _ => Raise (OtherError "DuplicateWidgetID")
  | None =>
      match opts with
      | None =>
          let val :=
            if String.eqb feat "age" then number_input a feat (Some (10, 30)) 17
            else if String.eqb feat "absences" then number_input a feat (Some (0, 93)) 0
            else if String.eqb feat "G1" || String.eqb feat "G2"
            then number_input a feat (Some (0, 20)) 10
            else number_input a feat None 0 in
          Return (dict_set inputs feat val, shown)
      | Some opts =>
          match selectbox a feat (dict_keys opts) with
          | Some sel =>
              v <- dict_getitem opts sel ;;
              Return (dict_set inputs feat v, shown)
          | None => Raise (KeyError "None")
          end
      end
  end.

(** [src/streamlit/app.py], the form: the [inputs] it collects for the
    features of [order], and the warnings it shows. *)
Definition st_form (a : st_answers) (order : list string)
  : result (dict pyval * list st_event) :=
  for_each (st_field a) order ([], []).

(** ** More notions used to state the properties *)

Definition has_label (g : app) (feat : string) : bool :=
  match dict_get (error_labels g) feat with
  | Some _ => true
  | None => false
  end.

(** Every feature of the order has its error label, which is how the loop
    that builds the form leaves it. *)
Definition labels_ok (g : app) : bool := forallb (has_label g) (FEATURE_ORDER g).

(** A widget as [clear_form] leaves it. *)
Definition reset_widget (w : widget) : widget :=
  match default_text w with
  | Return text => set_var w text
  | Raise _ => w
  end.

(** An item of [widget_vars] as [clear_form] leaves it, and what it does to
    the error labels for it. *)
Definition reset_item (item : string * widget) : string * widget :=
  (fst item, reset_widget (snd item)).

Definition clear_label (labels : dict string) (item : string * widget)
  : dict string :=
  dict_set labels (fst item) "".

(** A state [clear_form] can work on: no key of [widget_vars] is repeated,
    every dropdown has a choice, and every widget has its error label. *)
Definition clearable (g : app) : Prop :=
  NoDup (dict_keys (widget_vars g))
  /\ Forall (fun item => (exists text, default_text (snd item) = Return text)
                         /\ has_label g (fst item) = true)
            (widget_vars g).

(** The choices the Streamlit catalog gives a feature. *)
Definition st_catalog_choices (feat : string) : option (dict pyval) :=
  match dict_get ST_FIELD_INFO feat with
  | Some (_, opts) => opts
  | None => None
  end.

(** The warning the Streamlit form shows for a feature: one for a feature
    that its catalog does not know, none for the others. *)
Definition missing_mapping (feat : string) : list st_event :=
  match dict_get ST_FIELD_INFO feat with
  | Some _ => []
  | None => [ st_warning ("Missing UI mapping for feature: " ++ feat) ]
  end.

(** The user picks, in every select box touched, one of its options. *)
Definition picks_listed_options (a : st_answers) : Prop :=
  forall feat opts sel,
    st_catalog_choices feat = Some opts -> selected a feat = Some sel ->
    In sel (dict_keys opts).

(** A user who touches nothing, and one who sets the age to 19 and the
    school to "MS". *)
Definition untouched : st_answers :=
  {| number := fun _ => None; selected := fun _ => None |}.

Definition some_answers : st_answers :=
  {| number := fun f => if String.eqb f "age" then Some 19 else None;
     selected := fun f => if String.eqb f "school" then Some "MS" else None |}.

(** A classifier whose [predict] fails. *)
Definition broken_model : collaborators :=
  {| import_pandas := Return tt;
     predict_proba := fun _ => Return (S754_finite false 13 (-4));
     predict := fun _ => Raise (RuntimeError "shape mismatch") |}.

(** * Properties *)

(** ** Dictionaries *)

Section DictFacts.
Context {V : Type}.
Implicit Types (d : dict V) (k : string) (v : V).

Lemma dict_get_set_eq d k v : dict_get (dict_set d k v) k = Some v.
Proof.
  induction d as [|[k' v'] d IH]; simpl.
  - now rewrite String.eqb_refl.
  - destruct (String.eqb k k') eqn:E; simpl; rewrite E; auto.
Qed.

Lemma dict_get_set_ne d k k' v :
  k' <> k -> dict_get (dict_set d k v) k' = dict_get d k'.
Proof.
  intros Hne. apply String.eqb_neq in Hne.
  induction d as [|[k0 v0] d IH]; simpl.
  - now rewrite Hne.
  - destruct (String.eqb k k0) eqn:E; simpl.
    + apply String.eqb_eq in E. subst k0. now rewrite Hne.
    + now rewrite IH.
Qed.

Lemma dict_truthy_set d k v : dict_truthy (dict_set d k v) = true.
Proof.
  destruct d as [|[k' v'] d]; simpl; [reflexivity|].
  now destruct (String.eqb k k').
Qed.

Lemma dict_get_In d k v : dict_get d k = Some v -> In (k, v) d.
Proof.
  induction d as [|[k' v'] d IH]; simpl; [discriminate|].
  destruct (String.eqb k k') eqn:E.
  - apply String.eqb_eq in E. intros [= ->]. left. now subst.
  - auto.
Qed.

Lemma dict_keys_set d k v :
  NoDup (dict_keys d) -> NoDup (dict_keys (dict_set d k v)).
Proof.
  assert (Hin : forall d x, In x (dict_keys (dict_set d k v)) ->
                            x = k \/ In x (dict_keys d)).
  { clear d. induction d as [|[k' v'] d IH]; simpl; intros x.
    - intros [<-|[]]. now left.
    - destruct (String.eqb k k'); simpl; [tauto|].
      intros [<-|H]; [tauto|]. destruct (IH _ H); tauto. }
  induction d as [|[k' v'] d IH]; simpl; intros Hnd.
  - repeat constructor. simpl. tauto.
  - inversion Hnd as [|? ? Hk' Hd]; subst.
    destruct (String.eqb k k') eqn:E; simpl; [now constructor|].
    constructor; [|now apply IH].
    intros H. apply Hin in H. destruct H as [->|H]; [|tauto].
    now rewrite String.eqb_refl in E.
Qed.

(** With distinct keys, what a lookup finds does not depend on the order
    in which the entries are stored. *)
Lemma dict_get_Permutation d d' k :
  NoDup (dict_keys d) -> Permutation d d' -> dict_get d k = dict_get d' k.
Proof.
  intros Hnd Hp. revert Hnd.
  induction Hp as [|[k0 v0] l l' Hp IH|[k1 v1] [k2 v2] l|l l' l'' Hp1 IH1 Hp2 IH2];
    simpl; intros Hnd.
  - reflexivity.
  - inversion Hnd; subst. now rewrite IH.
  - inversion Hnd as [|? ? Hk Hr]; subst. simpl in Hk.
    destruct (String.eqb k k1) eqn:E1, (String.eqb k k2) eqn:E2; auto.
    apply String.eqb_eq in E1, E2. subst. tauto.
  - rewrite IH1 by assumption. apply IH2.
    unfold dict_keys. eapply Permutation_NoDup; [|exact Hnd].
    now apply Permutation_map.
Qed.
End DictFacts.

(** ** Loops *)

Lemma comprehension_Forall2 {A B} (f : A -> result B) (P : A -> B -> Prop) l :
  (forall a, In a l -> exists b, f a = Return b /\ P a b) ->
  exists bs, comprehension f l = Return bs /\ Forall2 P l bs.
Proof.
  induction l as [|a l IH]; simpl; intros H.
  - exists []. split; [reflexivity|constructor].
  - destruct (H a (or_introl eq_refl)) as (b & Hb & Pb).
    destruct IH as (bs & Hbs & Pbs); [intros; apply H; now right|].
    exists (b :: bs). rewrite Hb. simpl. rewrite Hbs. simpl.
    split; [reflexivity|now constructor].
Qed.

Lemma Forall2_nth_error {A B} (P : A -> B -> Prop) l bs :
  Forall2 P l bs ->
  forall i a, nth_error l i = Some a -> exists b, nth_error bs i = Some b /\ P a b.
Proof.
  induction 1 as [|a0 b0 l bs H0 H IH]; intros [|i] a; simpl; try discriminate.
  - intros [= ->]. eauto.
  - apply IH.
Qed.

Lemma Forall2_same_length {A B} (P : A -> B -> Prop) l bs :
  Forall2 P l bs -> List.length bs = List.length l.
Proof. induction 1; simpl; congruence. Qed.

(** ** The numeric cast *)

(** On an ASCII text the Unicode database plays no part. *)
Lemma float_of_str_ascii (U' : PyFloat.unicode_db) s :
  PyFloat.is_ascii_text (list_ascii_of_string s) = true ->
  @PyFloat.float_of_str U' s = PyFloat.float_of_str s.
Proof.
  intros H. unfold PyFloat.float_of_str, PyFloat.TransformDecimalAndSpaceToASCII.
  now rewrite H.
Qed.

Lemma safe_cast_int_total x :
  safe_cast_int x = Return PyNone \/ exists z, safe_cast_int x = Return (PyInt z).
Proof.
  unfold safe_cast_int.
  destruct (f <- float_ x;; PyFloat.int_of_float f) as [z|e]; eauto.
Qed.

Lemma safe_cast_int_of_float x f z :
  float_ x = Return f -> PyFloat.int_of_float f = Return z ->
  safe_cast_int x = Return (PyInt z).
Proof. intros Hf Hz. unfold safe_cast_int. rewrite Hf. simpl. now rewrite Hz. Qed.

Lemma safe_cast_int_None x :
  (exists e, float_ x = Raise e)
  \/ (exists f e, float_ x = Return f /\ PyFloat.int_of_float f = Raise e) ->
  safe_cast_int x = Return PyNone.
Proof.
  unfold safe_cast_int.
  intros [(e & ->)|(f & e & -> & Hz)]; simpl; [reflexivity|now rewrite Hz].
Qed.

(** Rounding toward zero: the integer of a finite float is the truncated
    quotient of its exact value. *)
Lemma int_of_float_truncates neg m e :
  PyFloat.int_of_float (S754_finite neg m e)
  = Return (Z.quot (float_num neg m e) (float_den e)).
Proof.
  unfold PyFloat.int_of_float, float_num, float_den. f_equal.
  destruct (Z.le_gt_cases 0 e) as [He|He].
  - rewrite Z.max_l, Z.max_r by lia. simpl (2 ^ 0). rewrite Z.quot_1_r.
    now rewrite Z.shiftl_mul_pow2.
  - rewrite Z.max_r, Z.max_l by lia. rewrite Z.mul_1_r.
    replace e with (- (- e)) at 1 by lia.
    rewrite Z.shiftl_opp_r, Z.shiftr_div_pow2 by lia.
    assert (0 < 2 ^ (- e)) by (apply Z.pow_pos_nonneg; lia).
    destruct neg; simpl cond_Zopp.
    + change (Z.neg m) with (- Z.pos m).
      rewrite Z.quot_opp_l by lia. now rewrite Z.quot_div_nonneg by lia.
    + now rewrite Z.quot_div_nonneg by lia.
Qed.

(** ** The loop of [gather_and_map_inputs] *)

Lemma has_widget_get g feat :
  has_widget g feat = true -> exists w, dict_get (widget_vars g) feat = Some w.
Proof. unfold has_widget. destruct (dict_get _ _); [eauto|discriminate]. Qed.

Lemma form_ok_get g feat :
  form_ok g = true -> In feat (FEATURE_ORDER g) ->
  exists w, dict_get (widget_vars g) feat = Some w.
Proof.
  unfold form_ok. rewrite forallb_forall. intros H Hin.
  now apply has_widget_get, H.
Qed.

(** One turn of the loop stores the encoded value of the field in [mapped],
    or its message in [errors]. *)
Lemma gather_step_spec g errors mapped feat w :
  dict_get (widget_vars g) feat = Some w ->
  gather_step g (errors, mapped) feat
  = Return match encoded_value w with
           | Some v => (errors, dict_set mapped feat v)
           | None => (dict_set errors feat (error_message w), mapped)
           end.
Proof.
  intros Hw. unfold gather_step, dict_getitem. rewrite Hw. simpl.
  destruct w as [var extra|var lo hi]; simpl.
  - unfold dict_get_or_None. now destruct (dict_get extra var) as [[]|].
  - destruct (safe_cast_int_total (PyStr var)) as [E|[z E]]; now rewrite E.
Qed.

Lemma field_of_widget g feat w :
  dict_get (widget_vars g) feat = Some w ->
  field_value g feat = encoded_value w
  /\ field_error g feat = match encoded_value w with
                          | Some _ => None
                          | None => Some (error_message w)
                          end.
Proof. intros H. unfold field_value, field_error. now rewrite H. Qed.

(** The state of the loop after the features [l], from any [errors] and
    [mapped]: the features of [l] have their message or their value, and the
    other keys are untouched. *)
Lemma gather_loop_from g l :
  forallb (has_widget g) l = true ->
  forall errors mapped,
  exists errors' mapped',
    for_each (gather_step g) l (errors, mapped) = Return (errors', mapped')
    /\ (forall k, In k l ->
          dict_get errors' k = match field_error g k with
                               | Some m => Some m
                               | None => dict_get errors k
                               end)
    /\ (forall k, ~ In k l -> dict_get errors' k = dict_get errors k)
    /\ (forall k, In k l ->
          dict_get mapped' k = match field_value g k with
                               | Some v => Some v
                               | None => dict_get mapped k
                               end)
    /\ (forall k, ~ In k l -> dict_get mapped' k = dict_get mapped k)
    /\ dict_truthy errors' = dict_truthy errors || existsb (fails g) l.
Proof.
  induction l as [|f l IH]; intros Hok errors mapped.
  - exists errors, mapped. simpl. rewrite orb_false_r.
    repeat split; auto; intros k []. 
  - simpl in Hok. apply andb_prop in Hok. destruct Hok as [Hf Hl].
    destruct (has_widget_get _ _ Hf) as [w Hw].
    destruct (field_of_widget _ _ _ Hw) as [Hval Herr].
    cbn [for_each]. rewrite (gather_step_spec _ _ _ _ _ Hw). cbn [bind existsb].
    unfold fails at 1. rewrite Herr.
    destruct (encoded_value w) as [v|] eqn:Ev.
    + destruct (IH Hl errors (dict_set mapped f v))
        as (errors' & mapped' & Hrun & He1 & He2 & Hm1 & Hm2 & Ht).
      exists errors', mapped'. split; [exact Hrun|].
      split; [|split; [|split; [|split]]].
      * intros k [<-|Hk].
        -- rewrite Herr. destruct (in_dec string_dec f l) as [Hi|Hi].
           ++ rewrite (He1 _ Hi). now rewrite Herr.
           ++ now apply He2.
        -- now apply He1.
      * intros k Hk. apply He2. simpl in Hk. tauto.
      * intros k [<-|Hk].
        -- rewrite Hval. destruct (in_dec string_dec f l) as [Hi|Hi].
           ++ rewrite (Hm1 _ Hi). now rewrite Hval.
           ++ rewrite (Hm2 _ Hi). apply dict_get_set_eq.
        -- rewrite (Hm1 _ Hk). destruct (field_value g k) eqn:Ek; [reflexivity|].
           destruct (string_dec k f) as [->|Hne]; [congruence|].
           now apply dict_get_set_ne.
      * intros k Hk. simpl in Hk. rewrite Hm2 by tauto.
        apply dict_get_set_ne. intros ->. tauto.
      * exact Ht.
    + destruct (IH Hl (dict_set errors f (error_message w)) mapped)
        as (errors' & mapped' & Hrun & He1 & He2 & Hm1 & Hm2 & Ht).
      exists errors', mapped'. split; [exact Hrun|].
      split; [|split; [|split; [|split]]].
      * intros k [<-|Hk].
        -- rewrite Herr. destruct (in_dec string_dec f l) as [Hi|Hi].
           ++ rewrite (He1 _ Hi). now rewrite Herr.
           ++ rewrite (He2 _ Hi). apply dict_get_set_eq.
        -- rewrite (He1 _ Hk). destruct (field_error g k) eqn:Ek; [reflexivity|].
           destruct (string_dec k f) as [->|Hne]; [congruence|].
           now apply dict_get_set_ne.
      * intros k Hk. simpl in Hk. rewrite He2 by tauto.
        apply dict_get_set_ne. intros ->. tauto.
      * intros k [<-|Hk].
        -- rewrite Hval. destruct (in_dec string_dec f l) as [Hi|Hi].
           ++ rewrite (Hm1 _ Hi). now rewrite Hval.
           ++ now apply Hm2.
        -- now apply Hm1.
      * intros k Hk. apply Hm2. simpl in Hk. tauto.
      * rewrite Ht, dict_truthy_set. simpl. now rewrite orb_true_r.
Qed.

Lemma validates_get g feat :
  validates g feat = true ->
  exists w v, dict_get (widget_vars g) feat = Some w /\ encoded_value w = Some v
              /\ field_value g feat = Some v /\ fails g feat = false.
Proof.
  unfold validates, fails, field_value, field_error.
  destruct (dict_get (widget_vars g) feat) as [w|]; [|discriminate].
  destruct (encoded_value w) as [v|] eqn:Ev; [|discriminate].
  intros _. exists w, v. repeat split. exact Ev.
Qed.

Lemma all_validate_form_ok g :
  forallb (validates g) (FEATURE_ORDER g) = true -> form_ok g = true.
Proof.
  unfold form_ok. rewrite !forallb_forall. intros H f Hf.
  destruct (validates_get _ _ (H f Hf)) as (w & v & Hw & _).
  unfold has_widget. now rewrite Hw.
Qed.

Lemma not_fails_value g feat :
  has_widget g feat = true -> fails g feat = false ->
  exists v, field_value g feat = Some v.
Proof.
  intros Hw. destruct (has_widget_get _ _ Hw) as [w Hg].
  unfold fails, field_error, field_value. rewrite Hg.
  destruct (encoded_value w); [eauto|discriminate].
Qed.

(** What [gather_and_map_inputs] returns on a well-formed form: the messages
    of the failing fields when there is one, and otherwise the values of the
    features in the order of [FEATURE_ORDER]. *)
Lemma gather_and_map_inputs_spec g :
  form_ok g = true ->
  (existsb (fails g) (FEATURE_ORDER g) = true
   /\ exists errors,
        gather_and_map_inputs g = Return (false, Errors errors)
        /\ errors <> []
        /\ (forall k, In k (FEATURE_ORDER g) -> dict_get errors k = field_error g k)
        /\ (forall k, ~ In k (FEATURE_ORDER g) -> dict_get errors k = None))
  \/ (existsb (fails g) (FEATURE_ORDER g) = false
      /\ exists values,
           gather_and_map_inputs g = Return (true, Vector values)
           /\ Forall2 (fun f v => field_value g f = Some v) (FEATURE_ORDER g) values).
Proof.
  intros Hok. unfold form_ok in Hok.
  destruct (gather_loop_from g _ Hok [] [])
    as (errors & mapped & Hrun & He1 & He2 & Hm1 & _ & Ht).
  assert (Hrun' : gather_loop g = Return (errors, mapped)) by exact Hrun.
  unfold gather_and_map_inputs. rewrite Hrun'. cbn [bind].
  rewrite Ht. simpl orb.
  destruct (existsb (fails g) (FEATURE_ORDER g)) eqn:Ex; [left|right];
    (split; [reflexivity|]).
  - exists errors. split; [reflexivity|]. split; [|split].
    + intros ->. simpl in Ht. discriminate.
    + intros k Hk. rewrite (He1 _ Hk). simpl. now destruct (field_error g k).
    + intros k Hk. now rewrite (He2 _ Hk).
  - destruct (comprehension_Forall2 (dict_getitem mapped)
                (fun f v => field_value g f = Some v) (FEATURE_ORDER g))
      as (values & Hc & HF).
    { intros f Hf. rewrite forallb_forall in Hok.
      destruct (not_fails_value g f (Hok _ Hf)) as [v Hv].
      - destruct (fails g f) eqn:Ef; [|reflexivity].
        assert (existsb (fails g) (FEATURE_ORDER g) = true)
          by (apply existsb_exists; eauto).
        congruence.
      - exists v. split; [|exact Hv].
        unfold dict_getitem. rewrite (Hm1 _ Hf), Hv. reflexivity. }
    exists values. rewrite Hc. cbn [bind]. auto.
Qed.

Lemma for_each_ext {S A} (f f' : S -> A -> result S) l :
  (forall s a, f s a = f' s a) -> forall s, for_each f l s = for_each f' l s.
Proof.
  intros H. induction l as [|a l IH]; intros s; simpl; [reflexivity|].
  rewrite H. destruct (f' s a); simpl; auto.
Qed.

(** The result is a function of [FEATURE_ORDER] and of what the lookups in
    [widget_vars] find, and of nothing else in the state. *)
Lemma gather_and_map_inputs_ext g g' :
  FEATURE_ORDER g' = FEATURE_ORDER g ->
  (forall k, dict_get (widget_vars g') k = dict_get (widget_vars g) k) ->
  gather_and_map_inputs g' = gather_and_map_inputs g.
Proof.
  intros Ho Hw. unfold gather_and_map_inputs, gather_loop. rewrite Ho.
  rewrite (for_each_ext (gather_step g') (gather_step g)); [reflexivity|].
  intros [errors mapped] a. unfold gather_step, dict_getitem. now rewrite Hw.
Qed.

(** ** The claims about the encoding pipeline *)

(** C1. When every field validates, [gather_and_map_inputs] returns
    [(True, values)] where [values] has as many entries as [FEATURE_ORDER]
    and its i-th entry is the encoded value of the i-th feature; storing the
    entries of [widget_vars] in another order gives the same list. *)
Theorem encoded_vector_complete_in_schema_order (g : app) :
  forallb (validates g) (FEATURE_ORDER g) = true ->
  exists values,
    gather_and_map_inputs g = Return (true, Vector values)
    /\ List.length values = List.length (FEATURE_ORDER g)
    /\ (forall i feat, nth_error (FEATURE_ORDER g) i = Some feat ->
          exists w, dict_get (widget_vars g) feat = Some w
                    /\ nth_error values i = encoded_value w)
    /\ (forall wv', NoDup (dict_keys (widget_vars g)) ->
          Permutation (widget_vars g) wv' ->
          gather_and_map_inputs (with_widgets g wv' (error_labels g))
          = Return (true, Vector values)).
Proof.
  intros Hall. pose proof (all_validate_form_ok _ Hall) as Hok.
  destruct (gather_and_map_inputs_spec g Hok)
    as [(Ex & _)|(_ & values & Hrun & HF)].
  - apply existsb_exists in Ex. destruct Ex as (f & Hf & Hfail).
    rewrite forallb_forall in Hall.
    destruct (validates_get _ _ (Hall f Hf)) as (_ & _ & _ & _ & _ & Hnf).
    congruence.
  - exists values. split; [exact Hrun|]. split; [|split].
    + eapply Forall2_same_length; eauto.
    + intros i feat Hi.
      destruct (Forall2_nth_error _ _ _ HF i feat Hi) as (v & Hv & Hval).
      destruct (form_ok_get g feat Hok) as [w Hw];
        [eapply nth_error_In; eauto|].
      exists w. split; [exact Hw|].
      unfold field_value in Hval. rewrite Hw in Hval. congruence.
    + intros wv' Hnd Hp. rewrite <- Hrun.
      apply gather_and_map_inputs_ext; [reflexivity|].
      intros k. simpl. symmetry. now apply dict_get_Permutation.
Qed.

(** C2. On a well-formed form every field is checked before the outcome is
    decided: the call fails exactly when some field fails, it then returns
    the [errors] dictionary, which is not empty and has an entry, with its
    message, for each failing field and for no other key; a list of values
    is returned only on success. *)
Theorem errors_accumulate_over_all_fields (g : app) :
  form_ok g = true ->
  exists ok p,
    gather_and_map_inputs g = Return (ok, p)
    /\ (ok = false <-> exists feat, In feat (FEATURE_ORDER g) /\ fails g feat = true)
    /\ match p with
       | Errors errors =>
           ok = false /\ errors <> []
           /\ forall feat msg,
                dict_get errors feat = Some msg
                <-> In feat (FEATURE_ORDER g) /\ field_error g feat = Some msg
       | Vector _ => ok = true
       end.
Proof.
  intros Hok.
  destruct (gather_and_map_inputs_spec g Hok)
    as [(Ex & errors & Hrun & Hne & Hin & Hout)|(Ex & values & Hrun & _)].
  - exists false, (Errors errors). split; [exact Hrun|]. split; [|split; [|split]].
    + split; [intros _|reflexivity]. now apply existsb_exists.
    + reflexivity.
    + exact Hne.
    + intros feat msg. destruct (in_dec string_dec feat (FEATURE_ORDER g)) as [Hi|Hi].
      * rewrite (Hin _ Hi). tauto.
      * rewrite (Hout _ Hi). split; [discriminate|tauto].
  - exists true, (Vector values). split; [exact Hrun|]. split; [|reflexivity].
    split; [discriminate|]. intros Hex. apply existsb_exists in Hex. congruence.
Qed.

(** A field that validates is stored in [mapped] by the loop and gets no
    entry in [errors].  The call then returns the list of values, with this
    value at each position of the feature, when every other field validates
    too, and the [errors] dictionary, without this feature, when another
    field fails. *)
Lemma valid_field_encoded g feat w v :
  form_ok g = true -> In feat (FEATURE_ORDER g) ->
  dict_get (widget_vars g) feat = Some w -> encoded_value w = Some v ->
  (exists errors mapped,
     gather_loop g = Return (errors, mapped)
     /\ dict_get mapped feat = Some v /\ dict_get errors feat = None)
  /\ ((forall other, In other (FEATURE_ORDER g) -> other <> feat ->
         fails g other = false) ->
      exists values,
        gather_and_map_inputs g = Return (true, Vector values)
        /\ List.length values = List.length (FEATURE_ORDER g)
        /\ forall i, nth_error (FEATURE_ORDER g) i = Some feat ->
                     nth_error values i = Some v)
  /\ ((exists other, In other (FEATURE_ORDER g) /\ fails g other = true) ->
      exists errors,
        gather_and_map_inputs g = Return (false, Errors errors)
        /\ dict_get errors feat = None).
Proof.
  intros Hok Hin Hw Hv.
  destruct (field_of_widget _ _ _ Hw) as [Hval Herr]. rewrite Hv in Hval, Herr.
  split; [|split].
  - pose proof Hok as Hok'. unfold form_ok in Hok'.
    destruct (gather_loop_from g _ Hok' [] [])
      as (errors & mapped & Hrun & He1 & _ & Hm1 & _).
    exists errors, mapped. split; [exact Hrun|]. split.
    + now rewrite (Hm1 _ Hin), Hval.
    + now rewrite (He1 _ Hin), Herr.
  - intros Hothers.
    destruct (gather_and_map_inputs_spec g Hok)
      as [(Ex & _)|(_ & values & Hrun & HF)].
    + apply existsb_exists in Ex. destruct Ex as (f & Hf & Hfail).
      destruct (string_dec f feat) as [->|Hne].
      * unfold fails in Hfail. rewrite Herr in Hfail. discriminate.
      * rewrite (Hothers f Hf Hne) in Hfail. discriminate.
    + exists values. split; [exact Hrun|]. split.
      * eapply Forall2_same_length; eauto.
      * intros i Hi.
        destruct (Forall2_nth_error _ _ _ HF i feat Hi) as (v' & Hv' & Hfv).
        congruence.
  - intros (other & Ho & Hfail).
    destruct (gather_and_map_inputs_spec g Hok)
      as [(_ & errors & Hrun & _ & Hi & _)|(Ex & _)].
    + exists errors. split; [exact Hrun|]. now rewrite (Hi _ Hin).
    + assert (existsb (fails g) (FEATURE_ORDER g) = true); [|congruence].
      apply existsb_exists. eauto.
Qed.

(** A field that does not validate makes the call fail, with its message
    under its name. *)
Lemma invalid_field_in_result g feat w :
  form_ok g = true -> In feat (FEATURE_ORDER g) ->
  dict_get (widget_vars g) feat = Some w -> encoded_value w = None ->
  exists errors,
    gather_and_map_inputs g = Return (false, Errors errors)
    /\ dict_get errors feat = Some (error_message w)
    /\ forall other msg,
         dict_get errors other = Some msg ->
         In other (FEATURE_ORDER g) /\ field_error g other = Some msg.
Proof.
  intros Hok Hin Hw Hv.
  destruct (field_of_widget _ _ _ Hw) as [_ Herr]. rewrite Hv in Herr.
  destruct (gather_and_map_inputs_spec g Hok)
    as [(_ & errors & Hrun & _ & Hi & Ho)|(Ex & _)].
  - exists errors. split; [exact Hrun|]. split; [now rewrite (Hi _ Hin)|].
    intros other msg Hget.
    destruct (in_dec string_dec other (FEATURE_ORDER g)) as [Hio|Hio].
    + rewrite (Hi _ Hio) in Hget. auto.
    + rewrite (Ho _ Hio) in Hget. discriminate.
  - assert (existsb (fails g) (FEATURE_ORDER g) = true); [|congruence].
    apply existsb_exists. exists feat. split; [exact Hin|].
    unfold fails. now rewrite Herr.
Qed.

(** The catalog has no repeated display string in a choice list and maps
    none of them to [None]: a lookup of a listed pair finds its value. *)
Lemma FIELD_INFO_choices feat label opts k v :
  In (feat, label, Some opts) FIELD_INFO -> In (k, v) opts ->
  dict_get opts k = Some v /\ v <> PyNone.
Proof.
  intros Hf Hk.
  unfold FIELD_INFO, job, same, education, yes_no, one_to_five in Hf.
  cbn [map In] in Hf.
  repeat (destruct Hf as [Hf|Hf];
          [ first
              [ discriminate Hf
              | injection Hf as <- <- <-; cbn [In] in Hk;
                repeat (destruct Hk as [Hk|Hk];
                        [injection Hk as <- <-; split; [reflexivity|discriminate]|]);
                destruct Hk ]
          | ]).
  destruct Hf.
Qed.

(** The catalog names each of its features once, so the choices it lists
    for a feature are those [catalog_choices] finds. *)
Lemma FIELD_INFO_catalog_choices feat label opts :
  In (feat, label, opts) FIELD_INFO -> catalog_choices feat = opts.
Proof.
  intros H. unfold FIELD_INFO in H.
  repeat (destruct H as [H|H]; [injection H as <- <- <-; reflexivity|]).
  destruct H.
Qed.

(** C3. For a dropdown whose text is a key of its choices, the field
    validates and encodes to the value the key maps to, exactly as the
    mapping writes it (a string with its case, or an integer): the loop
    stores that value under the feature and no error for it, and the call
    returns the list of values, with that value at the feature's positions,
    when every other field validates, and the errors of the other fields,
    with none for this feature, when one of them fails.  For a text that is
    no key, the call fails with "Choose a valid option" under that feature,
    every other entry of [errors] being the failure of its own field.  On a
    form whose widgets are of the kinds the catalog says, the choices of the
    dropdown are those of the catalog, and every choice the catalog lists is
    a key that maps to the value listed with it. *)
Theorem categorical_choice_encodes_or_is_rejected
    (g : app) (feat var : string) (extra : dict pyval) :
  form_ok g = true -> In feat (FEATURE_ORDER g) ->
  dict_get (widget_vars g) feat = Some (dropdown var extra) ->
  (forall v, dict_get extra var = Some v -> v <> PyNone ->
     (exists errors mapped,
        gather_loop g = Return (errors, mapped)
        /\ dict_get mapped feat = Some v /\ dict_get errors feat = None)
     /\ ((forall other, In other (FEATURE_ORDER g) -> other <> feat ->
            fails g other = false) ->
         exists values,
           gather_and_map_inputs g = Return (true, Vector values)
           /\ List.length values = List.length (FEATURE_ORDER g)
           /\ forall i, nth_error (FEATURE_ORDER g) i = Some feat ->
                        nth_error values i = Some v)
     /\ ((exists other, In other (FEATURE_ORDER g) /\ fails g other = true) ->
         exists errors,
           gather_and_map_inputs g = Return (false, Errors errors)
           /\ dict_get errors feat = None))
  /\ (dict_get extra var = None ->
      exists errors,
        gather_and_map_inputs g = Return (false, Errors errors)
        /\ dict_get errors feat = Some "Choose a valid option"
        /\ forall other msg,
             other <> feat -> dict_get errors other = Some msg ->
             In other (FEATURE_ORDER g) /\ field_error g other = Some msg)
  /\ (kinds_ok g ->
      forall label opts,
        In (feat, label, Some opts) FIELD_INFO ->
        extra = opts
        /\ forall k v, In (k, v) opts -> dict_get extra k = Some v /\ v <> PyNone).
Proof.
  intros Hok Hin Hw. split; [|split].
  - intros v Hget Hv.
    apply (valid_field_encoded g feat _ v Hok Hin Hw).
    simpl. rewrite Hget. now destruct v.
  - intros Hget.
    destruct (invalid_field_in_result g feat _ Hok Hin Hw)
      as (errors & Hrun & Hfeat & Hother).
    { simpl. now rewrite Hget. }
    exists errors. split; [exact Hrun|]. split; [exact Hfeat|].
    intros other msg _. apply Hother.
  - intros Hkinds label opts Hcat.
    pose proof (Hkinds _ _ Hw) as Hm. unfold widget_matches in Hm.
    rewrite (FIELD_INFO_catalog_choices _ _ _ Hcat) in Hm. subst extra.
    split; [reflexivity|]. intros k v. now apply FIELD_INFO_choices with feat label.
Qed.

(** C4. For a numeric field whose text [float] reads and [int] truncates to
    an integer [z], the field validates and encodes to [z]: the loop stores
    [z] under the feature and no error for it, and the call returns the list
    of values, with [z] at the feature's positions, when every other field
    validates, and the errors of the other fields, with none for this
    feature, when one of them fails.  For a text on which that cast raises,
    the call fails with "Enter a number" under the feature.  The text is
    read as [float] reads it, with the spaces and decimal digits of other
    scripts that the Unicode database gives.  "12.0" casts to 12, and "abc"
    and the empty text do not cast. *)
Theorem numeric_text_casts_or_is_rejected
    (g : app) (feat var : string) (minval maxval : Z) :
  form_ok g = true -> In feat (FEATURE_ORDER g) ->
  dict_get (widget_vars g) feat = Some (spin var minval maxval) ->
  (forall z,
     (f <- float_ (PyStr var) ;; PyFloat.int_of_float f) = Return z ->
     (exists errors mapped,
        gather_loop g = Return (errors, mapped)
        /\ dict_get mapped feat = Some (PyInt z) /\ dict_get errors feat = None)
     /\ ((forall other, In other (FEATURE_ORDER g) -> other <> feat ->
            fails g other = false) ->
         exists values,
           gather_and_map_inputs g = Return (true, Vector values)
           /\ List.length values = List.length (FEATURE_ORDER g)
           /\ forall i, nth_error (FEATURE_ORDER g) i = Some feat ->
                        nth_error values i = Some (PyInt z))
     /\ ((exists other, In other (FEATURE_ORDER g) /\ fails g other = true) ->
         exists errors,
           gather_and_map_inputs g = Return (false, Errors errors)
           /\ dict_get errors feat = None))
  /\ (forall e,
        (f <- float_ (PyStr var) ;; PyFloat.int_of_float f) = Raise e ->
        exists errors,
          gather_and_map_inputs g = Return (false, Errors errors)
          /\ dict_get errors feat = Some "Enter a number")
  /\ (f <- float_ (PyStr "12.0") ;; PyFloat.int_of_float f) = Return 12
  /\ float_ (PyStr "abc") = Raise ValueError
  /\ float_ (PyStr "") = Raise ValueError.
Proof.
  intros Hok Hin Hw. split; [|split; [|repeat split]].
  - intros z Hz.
    apply (valid_field_encoded g feat _ (PyInt z) Hok Hin Hw).
    simpl. unfold safe_cast_int. now rewrite Hz.
  - intros e He.
    destruct (invalid_field_in_result g feat _ Hok Hin Hw)
      as (errors & Hrun & Hfeat & _).
    { simpl. unfold safe_cast_int. now rewrite He. }
    eauto.
Qed.

(** C6. A numeric field is not checked against its bounds: a text that
    casts to an integer outside [minval, maxval] is accepted and encoded as
    that integer all the same.  The loop stores the integer under the
    feature and no error for it, and the call returns the list of values,
    with the integer at the feature's positions, when every other field
    validates, and the errors of the other fields, with none for this
    feature, when one of them fails. *)
Theorem numeric_bounds_are_not_enforced
    (g : app) (feat var : string) (minval maxval z : Z) :
  form_ok g = true -> In feat (FEATURE_ORDER g) ->
  dict_get (widget_vars g) feat = Some (spin var minval maxval) ->
  safe_cast_int (PyStr var) = Return (PyInt z) ->
  z < minval \/ maxval < z ->
  (exists errors mapped,
     gather_loop g = Return (errors, mapped)
     /\ dict_get mapped feat = Some (PyInt z) /\ dict_get errors feat = None)
  /\ ((forall other, In other (FEATURE_ORDER g) -> other <> feat ->
         fails g other = false) ->
      exists values,
        gather_and_map_inputs g = Return (true, Vector values)
        /\ List.length values = List.length (FEATURE_ORDER g)
        /\ forall i, nth_error (FEATURE_ORDER g) i = Some feat ->
                     nth_error values i = Some (PyInt z))
  /\ ((exists other, In other (FEATURE_ORDER g) /\ fails g other = true) ->
      exists errors,
        gather_and_map_inputs g = Return (false, Errors errors)
        /\ dict_get errors feat = None).
Proof.
  intros Hok Hin Hw Hz _.
  apply (valid_field_encoded g feat _ (PyInt z) Hok Hin Hw).
  simpl. now rewrite Hz.
Qed.

(** C9. [safe_cast_int] never raises: on every value it returns an integer or
    [None].  "inf" and "nan" are read by [float] but refused by [int], so
    they give [None], and a numeric field holding such a text fails with
    "Enter a number". *)
Theorem safe_cast_int_never_raises :
  (forall x,
     safe_cast_int x = Return PyNone
     \/ exists z, safe_cast_int x = Return (PyInt z))
  /\ float_ (PyStr "inf") = Return (S754_infinity false)
  /\ float_ (PyStr "nan") = Return S754_nan
  /\ (forall x f,
        float_ x = Return f ->
        f = S754_nan \/ (exists neg, f = S754_infinity neg) ->
        safe_cast_int x = Return PyNone)
  /\ (forall (g : app) (feat var : string) (minval maxval : Z),
        form_ok g = true -> In feat (FEATURE_ORDER g) ->
        dict_get (widget_vars g) feat = Some (spin var minval maxval) ->
        safe_cast_int (PyStr var) = Return PyNone ->
        exists errors,
          gather_and_map_inputs g = Return (false, Errors errors)
          /\ dict_get errors feat = Some "Enter a number").
Proof.
  split; [exact safe_cast_int_total|]. split; [reflexivity|].
  split; [reflexivity|]. split.
  - intros x f Hf Hbad. apply safe_cast_int_None. right.
    destruct Hbad as [->|[neg ->]];
      [exists S754_nan, ValueError|exists (S754_infinity neg), OverflowError];
      (split; [assumption|reflexivity]).
  - intros g feat var lo hi Hok Hin Hw Hnone.
    destruct (invalid_field_in_result g feat _ Hok Hin Hw)
      as (errors & Hrun & Hfeat & _).
    { simpl. now rewrite Hnone. }
    eauto.
Qed.

(** C10. A numeric field whose text reads as a finite float that is not an
    integer is not rejected: the cast gives the value truncated toward zero,
    an integer that differs from the value entered and lies within one unit
    of it on the side of zero, and the field is accepted and encoded as that
    integer.  The loop stores it under the feature and no error for it, and
    the call returns the list of values, with the integer at the feature's
    positions, when every other field validates, and the errors of the other
    fields, with none for this feature, when one of them fails.  "17.9"
    casts to 17 and "-3.7" to -3. *)
Theorem fractional_text_is_truncated
    (g : app) (feat var : string) (minval maxval : Z)
    (neg : bool) (m : positive) (e : Z) :
  form_ok g = true -> In feat (FEATURE_ORDER g) ->
  dict_get (widget_vars g) feat = Some (spin var minval maxval) ->
  float_ (PyStr var) = Return (S754_finite neg m e) ->
  Z.rem (float_num neg m e) (float_den e) <> 0 ->
  let z := Z.quot (float_num neg m e) (float_den e) in
  safe_cast_int (PyStr var) = Return (PyInt z)
  /\ ((exists errors mapped,
         gather_loop g = Return (errors, mapped)
         /\ dict_get mapped feat = Some (PyInt z) /\ dict_get errors feat = None)
      /\ ((forall other, In other (FEATURE_ORDER g) -> other <> feat ->
             fails g other = false) ->
          exists values,
            gather_and_map_inputs g = Return (true, Vector values)
            /\ List.length values = List.length (FEATURE_ORDER g)
            /\ forall i, nth_error (FEATURE_ORDER g) i = Some feat ->
                         nth_error values i = Some (PyInt z))
      /\ ((exists other, In other (FEATURE_ORDER g) /\ fails g other = true) ->
          exists errors,
            gather_and_map_inputs g = Return (false, Errors errors)
            /\ dict_get errors feat = None))
  /\ (Z.abs (z * float_den e) < Z.abs (float_num neg m e)
      /\ Z.abs (float_num neg m e) < Z.abs (z * float_den e) + float_den e)
  /\ safe_cast_int (PyStr "17.9") = Return (PyInt 17)
  /\ safe_cast_int (PyStr "-3.7") = Return (PyInt (-3)).
Proof.
  intros Hok Hin Hw Hf Hrem z.
  assert (Hcast : safe_cast_int (PyStr var) = Return (PyInt z))
    by (erewrite safe_cast_int_of_float; eauto using int_of_float_truncates).
  split; [exact Hcast|]. split; [|split; [|split; vm_compute; reflexivity]].
  - apply (valid_field_encoded g feat _ (PyInt z) Hok Hin Hw).
    simpl. now rewrite Hcast.
  - assert (Hden : 0 < float_den e)
      by (unfold float_den; apply Z.pow_pos_nonneg; lia).
    pose proof (Z.quot_rem' (float_num neg m e) (float_den e)) as Hqr.
    fold z in Hqr.
    destruct (Z.le_gt_cases 0 (float_num neg m e)) as [Hn|Hn].
    + pose proof (Z.rem_bound_pos _ _ Hn Hden).
      pose proof (Z.quot_pos (float_num neg m e) (float_den e) Hn Hden).
      fold z in H0. nia.
    + assert (Hz : z = - Z.quot (- float_num neg m e) (float_den e))
        by (rewrite Z.quot_opp_l by lia; unfold z; lia).
      pose proof (Z.quot_rem' (- float_num neg m e) (float_den e)).
      pose proof (Z.rem_bound_pos (- float_num neg m e) (float_den e)
                                  ltac:(lia) Hden).
      pose proof (Z.quot_pos (- float_num neg m e) (float_den e)
                             ltac:(lia) Hden).
      assert (Z.rem (- float_num neg m e) (float_den e) <> 0)
        by (rewrite Z.rem_opp_l by lia; lia).
      nia.
Qed.

(** ** The prediction step *)

Lemma comprehension_length {A B} (f : A -> result B) l :
  forall bs, comprehension f l = Return bs -> List.length bs = List.length l.
Proof.
  induction l as [|a l IH]; simpl; intros bs.
  - now intros [= <-].
  - destruct (f a) as [b|]; simpl; [|discriminate].
    destruct (comprehension f l) as [bs'|]; simpl; [|discriminate].
    intros [= <-]. simpl. f_equal. now apply IH.
Qed.

Lemma gather_vector_length g ok values :
  gather_and_map_inputs g = Return (ok, Vector values) ->
  ok = true /\ List.length values = List.length (FEATURE_ORDER g).
Proof.
  unfold gather_and_map_inputs.
  destruct (gather_loop g) as [[errors mapped]|]; simpl; [|discriminate].
  destruct (dict_truthy errors); [discriminate|].
  destruct (comprehension (dict_getitem mapped) (FEATURE_ORDER g)) as [bs|] eqn:E;
    simpl; [|discriminate].
  intros [= <- <-]. split; [reflexivity|]. eapply comprehension_length; eauto.
Qed.

Lemma gather_ignores_error_labels g el :
  gather_and_map_inputs (with_error_labels g el) = gather_and_map_inputs g.
Proof. now apply gather_and_map_inputs_ext. Qed.

(** C7. When the inputs are valid and the probability cannot be had (the
    classifier has no [predict_proba], or the call raises) while [predict]
    answers, the prediction does not fail: the class label is shown, the
    probability reads "N/A", and no error is reported.  This holds of the
    desktop application and of the Streamlit one. *)
Theorem probability_failure_shows_NA :
  (forall (g : app) (values : list pyval) (e : exn) (c : Z),
     gather_and_map_inputs g = Return (true, Vector values) ->
     import_pandas (MODEL g) = Return tt ->
     predict_proba (MODEL g)
       {| columns := FEATURE_ORDER g; row := map Some values |} = Raise e ->
     predict (MODEL g)
       {| columns := FEATURE_ORDER g; row := map Some values |} = Return c ->
     exists g',
       predict_action g = Return g'
       /\ pred_var g' = (if c =? 1 then "1 (High stress)" else "0 (Low stress)")
       /\ prob_var g' = "N/A"
       /\ dialogs g' = dialogs g)
  /\ (forall (M : collaborators) (order : list string) (inputs : dict pyval)
             (e : exn) (c : Z),
        validate_inputs inputs = [] ->
        predict_proba M (DataFrame_of_dict inputs order) = Raise e ->
        predict M (DataFrame_of_dict inputs order) = Return c ->
        st_submitted M order inputs
        = [ st_metric "Prediction (class)"
              (if c =? 1 then "High stress (1)" else "Low stress (0)");
            st_metric "Probability" "N/A";
            st_markdown "#### Input (sent to model)";
            st_json inputs;
            st_download_button "Download input JSON" ]).
Proof.
  split.
  - intros g values e c Hgather Himport Hproba Hpredict.
    destruct (gather_vector_length _ _ _ Hgather) as [_ Hlen].
    unfold predict_action. rewrite gather_ignores_error_labels, Hgather.
    cbn [bind]. unfold run_model, DataFrame_of_list. cbn [MODEL FEATURE_ORDER
      with_error_labels with_widgets]. rewrite Himport, Hlen, Nat.eqb_refl.
    cbn [bind]. rewrite Hproba, Hpredict. cbn [bind report_failure].
    eexists. split; [reflexivity|]. repeat split.
  - intros M order inputs e c Hvalid Hproba Hpredict.
    unfold st_submitted, st_run_model. now rewrite Hvalid, Hproba, Hpredict.
Qed.

(** ** Purity of the encoding *)

Lemma predict_action_frame g g1 :
  predict_action g = Return g1 ->
  FEATURE_ORDER g1 = FEATURE_ORDER g /\ widget_vars g1 = widget_vars g.
Proof.
  unfold predict_action.
  destruct (gather_and_map_inputs _) as [[[|] [errors|values]]|]; cbn [bind];
    try discriminate.
  - unfold report_failure. destruct (run_model _ _) as [g'|e] eqn:E.
    + intros [= <-]. revert E. unfold run_model.
      destruct (import_pandas _); cbn [bind]; [|discriminate].
      destruct (predict _ _); cbn [bind]; [|discriminate].
      intros [= <-]. split; reflexivity.
    + intros [= <-]. split; reflexivity.
  - unfold report_failure. destruct (run_model _ _) as [g'|e] eqn:E.
    + intros [= <-]. revert E. unfold run_model.
      destruct (import_pandas _); cbn [bind]; [|discriminate].
      destruct (DataFrame_of_list _ _); cbn [bind]; [|discriminate].
      destruct (predict _ _); cbn [bind]; [|discriminate].
      intros [= <-]. split; reflexivity.
    + intros [= <-]. split; reflexivity.
  - destruct (for_each _ errors _) as [labels|]; cbn [bind]; [|discriminate].
    intros [= <-]. split; reflexivity.
Qed.

(** C8. The encoding is a function of the feature order and of the texts in
    the widgets alone: two states that agree on these give the same result,
    whatever else they hold, and encoding again after a whole run of
    [predict_action], which has called it once and changed labels, outputs
    and dialogs, gives the same result as before. *)
Theorem encoding_is_pure :
  (forall g g',
     FEATURE_ORDER g' = FEATURE_ORDER g -> widget_vars g' = widget_vars g ->
     gather_and_map_inputs g' = gather_and_map_inputs g)
  /\ (forall g g1,
        predict_action g = Return g1 ->
        gather_and_map_inputs g1 = gather_and_map_inputs g).
Proof.
  split.
  - intros g g' Ho Hw. apply gather_and_map_inputs_ext; [exact Ho|].
    intros k. now rewrite Hw.
  - intros g g1 Hrun. destruct (predict_action_frame _ _ Hrun) as [Ho Hw].
    apply gather_and_map_inputs_ext; [exact Ho|]. intros k. now rewrite Hw.
Qed.

(** ** The feature order at start *)



Lemma desktop_FEATURE_ORDER_cases file :
  exists order,
    desktop_FEATURE_ORDER file = Return order
    /\ (order = REQUIRED_FEATURES_copy
        \/ (file = Loaded order /\ all_in REQUIRED_FEATURES order = Return true)).
Proof.
  unfold desktop_FEATURE_ORDER.
  destruct file as [|e|v]; cbn [path_exists json_load bind]; eauto.
  destruct (all_in REQUIRED_FEATURES v) as [[|]|e] eqn:E; cbn [bind negb]; eauto.
Qed.

Lemma all_in_array names items :
  all_in names (JArray items)
  = Return (forallb (fun f => existsb (str_eq_json f) items) names).
Proof.
  induction names as [|f names IH]; simpl; [reflexivity|].
  destruct (existsb (str_eq_json f) items); simpl; [exact IH|reflexivity].
Qed.

Lemma names_of_items_In items :
  forall order, names_of_items items = Some order ->
  forall f, In (JString f) items <-> In f order.
Proof.
  induction items as [|x items IH]; simpl; intros order.
  - intros [= <-] f. reflexivity.
  - destruct x as [| | | |s| |]; simpl; try discriminate.
    destruct (names_of_items items) as [names|]; [|discriminate].
    intros [= <-] f. simpl. rewrite <- (IH names eq_refl f).
    split; (intros [H|H]; [left; congruence|now right]).
Qed.

(** A list of names that the desktop application settles on has every
    required name. *)
Lemma desktop_order_has_required file v order :
  desktop_FEATURE_ORDER file = Return v -> names_of v = Some order ->
  forall f, In f REQUIRED_FEATURES -> In f order.
Proof.
  intros Hv Hn.
  destruct (desktop_FEATURE_ORDER_cases file) as (v' & Hv' & Hcase).
  rewrite Hv in Hv'. injection Hv' as <-.
  destruct Hcase as [->|[_ Hall]].
  - vm_compute in Hn. injection Hn as <-. auto.
  - destruct v as [| | | | |items|]; try discriminate Hn. simpl in Hn.
    rewrite all_in_array in Hall.
    assert (Hreq : forallb (fun f => existsb (str_eq_json f) items)
                           REQUIRED_FEATURES = true) by congruence.
    clear Hall. pose proof (proj1 (forallb_forall _ _) Hreq) as Hall.
    intros f Hf.
    apply (names_of_items_In _ _ Hn). specialize (Hall f Hf).
    apply existsb_exists in Hall. destruct Hall as (x & Hx & Heq).
    destruct x; simpl in Heq; try discriminate Heq.
    apply String.eqb_eq in Heq. now subst.
Qed.


(** It does not fall back either when the file lacks a required name: it
    warns and goes on with the order of the file. *)
Lemma streamlit_incomplete_sidecar_is_kept :
  degraded (Loaded order_without_G2)
  /\ streamlit_load (Return sample_model) (Loaded order_without_G2)
     = Return (Running sample_model order_without_G2 [ st_warning order_mismatch ])
  /\ ~ st_falls_back (streamlit_load (Return sample_model) (Loaded order_without_G2)).
Proof.
  split; [|split].
  - exists "G2". split; [|reflexivity]. unfold REQUIRED_FEATURES.
    do 31 right. left. reflexivity.
  - reflexivity.
  - intros [model H]. discriminate H.
Qed.


(** ** The forms the application builds are well formed *)

Lemma has_widget_set_eq g el feat w :
  has_widget (with_widgets g (dict_set (widget_vars g) feat w) el) feat = true.
Proof. unfold has_widget. simpl. now rewrite dict_get_set_eq. Qed.

Lemma has_widget_set_keep g el feat w k :
  has_widget g k = true ->
  has_widget (with_widgets g (dict_set (widget_vars g) feat w) el) k = true.
Proof.
  unfold has_widget. simpl. destruct (string_dec k feat) as [->|Hne].
  - now rewrite dict_get_set_eq.
  - now rewrite dict_get_set_ne.
Qed.

Lemma add_field_shape g feat g1 :
  add_field g feat = Return g1 ->
  exists w, g1 = with_widgets g (dict_set (widget_vars g) feat w)
                              (dict_set (error_labels g) feat "")
            /\ widget_matches feat w.
Proof.
  unfold add_field, add_dropdown, add_spinbox, widget_matches, catalog_choices.
  destruct (dict_get FIELD_INFO_MAP feat) as [[label [opts|]]|].
  - destruct (dict_keys opts) as [|first rest]; [discriminate|].
    intros [= <-]. eexists. split; [reflexivity|reflexivity].
  - destruct (String.eqb feat "age");
      [|destruct (String.eqb feat "absences");
        [|destruct (String.eqb feat "G1" || String.eqb feat "G2")]];
      intros [= <-]; (eexists; split; [reflexivity|exact I]).
  - destruct (String.eqb feat "age");
      [|destruct (String.eqb feat "absences");
        [|destruct (String.eqb feat "G1" || String.eqb feat "G2")]];
      intros [= <-]; (eexists; split; [reflexivity|exact I]).
Qed.

Lemma kinds_ok_set g el feat w :
  kinds_ok g -> widget_matches feat w ->
  kinds_ok (with_widgets g (dict_set (widget_vars g) feat w) el).
Proof.
  intros Hk Hw k w'. simpl. destruct (string_dec k feat) as [->|Hne].
  - rewrite dict_get_set_eq. now intros [= <-].
  - rewrite dict_get_set_ne by assumption. apply Hk.
Qed.

Lemma add_field_widgets g feat g1 :
  add_field g feat = Return g1 ->
  FEATURE_ORDER g1 = FEATURE_ORDER g
  /\ has_widget g1 feat = true
  /\ (forall k, has_widget g k = true -> has_widget g1 k = true)
  /\ (NoDup (dict_keys (widget_vars g)) -> NoDup (dict_keys (widget_vars g1)))
  /\ (kinds_ok g -> kinds_ok g1).
Proof.
  intros H. destruct (add_field_shape _ _ _ H) as (w & -> & Hm).
  split; [reflexivity|]. split; [apply has_widget_set_eq|].
  split; [intros k; apply has_widget_set_keep|].
  split; [simpl; apply dict_keys_set|].
  intros Hk. now apply kinds_ok_set.
Qed.

(** No dropdown of the catalog is without choices, so building a widget
    never fails. *)
Lemma add_field_returns g feat : exists g1, add_field g feat = Return g1.
Proof.
  unfold add_field.
  destruct (dict_get FIELD_INFO_MAP feat) as [[label [opts|]]|] eqn:E.
  - apply dict_get_In in E. vm_compute in E.
    repeat (destruct E as [E|E];
            [first [discriminate E
                   | injection E as <- <- <-; eexists; reflexivity]|]);
      try contradiction.
  - destruct (String.eqb feat "age");
      [|destruct (String.eqb feat "absences");
        [|destruct (String.eqb feat "G1" || String.eqb feat "G2")]]; eauto.
  - destruct (String.eqb feat "age");
      [|destruct (String.eqb feat "absences");
        [|destruct (String.eqb feat "G1" || String.eqb feat "G2")]]; eauto.
Qed.

Lemma for_each_add_field l :
  forall g, exists g',
    for_each add_field l g = Return g'
    /\ FEATURE_ORDER g' = FEATURE_ORDER g
    /\ (forall k, In k l -> has_widget g' k = true)
    /\ (forall k, has_widget g k = true -> has_widget g' k = true)
    /\ (NoDup (dict_keys (widget_vars g)) -> NoDup (dict_keys (widget_vars g')))
    /\ (kinds_ok g -> kinds_ok g').
Proof.
  induction l as [|f l IH]; intros g; simpl.
  - exists g. repeat split; auto; intros k [].
  - destruct (add_field_returns g f) as [g1 H1]. rewrite H1. simpl.
    destruct (add_field_widgets _ _ _ H1) as (Ho & Hf & Hk & Hnd & Hkind).
    destruct (IH g1) as (g' & Hrun & Ho' & Hin & Hkeep & Hnd' & Hkind').
    exists g'. split; [exact Hrun|]. split; [congruence|].
    split; [|split; [|split]]; auto.
    intros k [<-|Hkl]; auto.
Qed.

(** The window always opens, on a form in which every feature of the order
    has its widget, of the kind the catalog says, and no key of
    [widget_vars] is repeated. *)
Lemma startup_form_ok M order :
  exists g, startup M order = Return g /\ FEATURE_ORDER g = order
            /\ form_ok g = true /\ NoDup (dict_keys (widget_vars g))
            /\ kinds_ok g.
Proof.
  unfold startup.
  destruct (for_each_add_field order
              {| MODEL := M; FEATURE_ORDER := order; widget_vars := [];
                 error_labels := []; pred_var := "—"; prob_var := "—";
                 dialogs := [] |}) as (g & Hrun & Ho & Hin & _ & Hnd & Hkind).
  exists g. split; [exact Hrun|]. split; [exact Ho|]. split; [|split].
  - unfold form_ok. apply forallb_forall. intros k Hk. apply Hin.
    now rewrite Ho in Hk.
  - apply Hnd. constructor.
  - apply Hkind. intros feat w. discriminate.
Qed.

(** Typing into a widget, or choosing in it, keeps all of this. *)
Lemma enter_form_ok g feat text :
  (form_ok g = true -> form_ok (enter g feat text) = true)
  /\ (NoDup (dict_keys (widget_vars g)) ->
      NoDup (dict_keys (widget_vars (enter g feat text))))
  /\ (kinds_ok g -> kinds_ok (enter g feat text)).
Proof.
  unfold form_ok, enter.
  destruct (dict_get (widget_vars g) feat) as [w|] eqn:E; [|tauto].
  simpl. split; [|split].
  - rewrite !forallb_forall. intros H k Hk. now apply has_widget_set_keep, H.
  - apply dict_keys_set.
  - intros Hk. apply kinds_ok_set; [exact Hk|].
    specialize (Hk _ _ E). unfold widget_matches in *.
    destruct (catalog_choices feat), w; simpl; auto.
Qed.

(** The form of the required features is of the kinds the catalog says. *)
Lemma kinds_ok_opened M : kinds_ok (opened M).
Proof.
  unfold opened.
  destruct (startup_form_ok M REQUIRED_FEATURES) as (g & Hrun & _ & _ & _ & Hk).
  rewrite Hrun. exact Hk.
Qed.

(** * Further properties of the two applications *)

(** ** More on dictionaries *)

Section MoreDictFacts.
Context {V : Type}.
Implicit Types (d : dict V) (k : string) (v : V).

Lemma dict_get_key d k v : dict_get d k = Some v -> In k (dict_keys d).
Proof.
  intros H. apply dict_get_In in H. unfold dict_keys.
  change k with (fst (k, v)). now apply in_map.
Qed.

Lemma dict_key_get d k : In k (dict_keys d) -> exists v, dict_get d k = Some v.
Proof.
  induction d as [|[k' v'] d IH]; simpl; [tauto|].
  intros H. destruct (String.eqb k k') eqn:E; [eauto|].
  apply String.eqb_neq in E. destruct H as [->|H]; [congruence|auto].
Qed.

Lemma dict_In_get d k v :
  NoDup (dict_keys d) -> In (k, v) d -> dict_get d k = Some v.
Proof.
  induction d as [|[k' v'] d IH]; simpl; [tauto|].
  intros Hnd [[= -> ->]|Hin].
  - now rewrite String.eqb_refl.
  - inversion Hnd as [|? ? Hk Hd]; subst.
    destruct (String.eqb k k') eqn:E; [|auto].
    apply String.eqb_eq in E. subst. exfalso. apply Hk.
    change k' with (fst (k', v)). now apply in_map.
Qed.

(** Setting a key that is there changes no key. *)
Lemma dict_keys_set_present d k v v0 :
  dict_get d k = Some v0 -> dict_keys (dict_set d k v) = dict_keys d.
Proof.
  induction d as [|[k' v'] d IH]; simpl; [discriminate|].
  destruct (String.eqb k k') eqn:E; simpl; [reflexivity|].
  intros H. now rewrite IH.
Qed.

(** Setting a key that is not there appends it. *)
Lemma dict_set_absent d k v : dict_get d k = None -> dict_set d k v = d ++ [(k, v)].
Proof.
  induction d as [|[k' v'] d IH]; simpl; [reflexivity|].
  destruct (String.eqb k k') eqn:E; [discriminate|].
  intros H. now rewrite IH.
Qed.

(** Setting a key to the value it has changes nothing. *)
Lemma dict_set_same d k v : dict_get d k = Some v -> dict_set d k v = d.
Proof.
  induction d as [|[k' v'] d IH]; simpl; [discriminate|].
  destruct (String.eqb k k') eqn:E.
  - now intros [= ->].
  - intros H. now rewrite IH.
Qed.

Lemma dict_set_middle pre k v v0 post :
  ~ In k (dict_keys pre) ->
  dict_set (pre ++ (k, v0) :: post) k v = pre ++ (k, v) :: post.
Proof.
  induction pre as [|[k' v'] pre IH]; simpl; intros Hn.
  - now rewrite String.eqb_refl.
  - destruct (String.eqb k k') eqn:E.
    + apply String.eqb_eq in E. subst. tauto.
    + rewrite IH by tauto. reflexivity.
Qed.

Lemma Forall_dict_set (Q : string * V -> Prop) d k v :
  Forall Q d -> Q (k, v) -> Forall Q (dict_set d k v).
Proof.
  intros Hd Hq. induction Hd as [|[k' v'] d Hx Hd IH]; simpl.
  - repeat constructor. exact Hq.
  - destruct (String.eqb k k') eqn:E.
    + apply String.eqb_eq in E. subst. now constructor.
    + now constructor.
Qed.
End MoreDictFacts.

Lemma dict_get_map_values {V W} (f : V -> W) (d : dict V) k :
  dict_get (map (fun item => (fst item, f (snd item))) d) k
  = option_map f (dict_get d k).
Proof.
  induction d as [|[k' v'] d IH]; simpl; [reflexivity|].
  now destruct (String.eqb k k').
Qed.

(** ** When [gather_and_map_inputs] raises *)

Lemma gather_loop_missing g l :
  forallb (has_widget g) l = false ->
  forall st,
  exists pre feat post,
    l = pre ++ feat :: post
    /\ forallb (has_widget g) pre = true
    /\ has_widget g feat = false
    /\ for_each (gather_step g) l st = Raise (KeyError feat).
Proof.
  induction l as [|f l IH]; simpl; [discriminate|].
  intros H [errors mapped]. destruct (has_widget g f) eqn:Hf.
  - simpl in H. destruct (has_widget_get _ _ Hf) as [w Hw].
    rewrite (gather_step_spec _ _ _ _ _ Hw). cbn [bind].
    destruct (IH H (match encoded_value w with
                    | Some v => (errors, dict_set mapped f v)
                    | None => (dict_set errors f (error_message w), mapped)
                    end))
      as (pre & feat & post & -> & Hpre & Hfeat & Hrun).
    exists (f :: pre), feat, post. simpl. rewrite Hf, Hpre. auto.
  - exists [], f, l. repeat split; auto.
    unfold gather_step, dict_getitem. unfold has_widget in Hf.
    destruct (dict_get (widget_vars g) f); [discriminate|reflexivity].
Qed.

(** X1. [gather_and_map_inputs] returns exactly when every feature of the
    order has its entry in [widget_vars]; otherwise it raises the [KeyError]
    of the first feature that has none. *)
Theorem gather_raises_only_for_a_missing_widget (g : app) :
  (form_ok g = true -> exists ok p, gather_and_map_inputs g = Return (ok, p))
  /\ (form_ok g = false ->
      exists pre feat post,
        FEATURE_ORDER g = pre ++ feat :: post
        /\ forallb (has_widget g) pre = true
        /\ has_widget g feat = false
        /\ gather_and_map_inputs g = Raise (KeyError feat)).
Proof.
  split.
  - intros Hok.
    destruct (gather_and_map_inputs_spec g Hok)
      as [(_ & errors & Hrun & _)|(_ & values & Hrun & _)]; eauto.
  - intros Hbad.
    destruct (gather_loop_missing g _ Hbad ([], []))
      as (pre & feat & post & Hl & Hpre & Hfeat & Hrun).
    exists pre, feat, post. repeat split; auto.
    unfold gather_and_map_inputs, gather_loop.
    replace (for_each (gather_step g) (FEATURE_ORDER g) ([], []))
      with (@Raise (dict string * dict pyval) (KeyError feat)) by (symmetry; exact Hrun).
    reflexivity.
Qed.

(** ** The form as it opens *)

(** The widget [add_field] makes shows its default text and validates. *)
Lemma add_field_fresh g feat g1 :
  add_field g feat = Return g1 ->
  exists w, g1 = with_widgets g (dict_set (widget_vars g) feat w)
                              (dict_set (error_labels g) feat "")
            /\ (exists text, default_text w = Return text /\ set_var w text = w)
            /\ (exists v, encoded_value w = Some v).
Proof.
  unfold add_field.
  destruct (dict_get FIELD_INFO_MAP feat) as [[label [opts|]]|] eqn:E.
  - apply dict_get_In in E. vm_compute in E.
    repeat (destruct E as [E|E];
            [first [discriminate E
                   | injection E as <- <- <-; intros [= <-]; eexists;
                     split; [reflexivity
                            |split; [eexists; split; reflexivity
                                    |eexists; reflexivity]]]|]);
      try contradiction.
  - destruct (String.eqb feat "age");
      [|destruct (String.eqb feat "absences");
        [|destruct (String.eqb feat "G1" || String.eqb feat "G2")]];
      intros [= <-]; eexists;
      (split; [reflexivity
              |split; [eexists; split; reflexivity|eexists; reflexivity]]).
  - destruct (String.eqb feat "age");
      [|destruct (String.eqb feat "absences");
        [|destruct (String.eqb feat "G1" || String.eqb feat "G2")]];
      intros [= <-]; eexists;
      (split; [reflexivity
              |split; [eexists; split; reflexivity|eexists; reflexivity]]).
Qed.


(** A property of the widgets that [add_field] establishes for the one it
    makes holds of every widget once the form is built. *)
Lemma for_each_add_field_inv (P : string -> widget -> Prop) :
  (forall g feat g1,
     add_field g feat = Return g1 ->
     exists w, g1 = with_widgets g (dict_set (widget_vars g) feat w)
                                 (dict_set (error_labels g) feat "")
               /\ P feat w) ->
  forall l g g',
    for_each add_field l g = Return g' ->
    (forall k w, dict_get (widget_vars g) k = Some w -> P k w) ->
    forall k w, dict_get (widget_vars g') k = Some w -> P k w.
Proof.
  intros Hadd. induction l as [|f l IH]; simpl; intros g g'.
  - now intros [= <-].
  - destruct (add_field g f) as [g1|] eqn:E; simpl; [|discriminate].
    intros Hrun Hg. apply (IH _ _ Hrun).
    destruct (Hadd _ _ _ E) as (w0 & -> & Hw0). simpl. intros k w.
    destruct (string_dec k f) as [->|Hne].
    + rewrite dict_get_set_eq. now intros [= <-].
    + rewrite dict_get_set_ne by assumption. apply Hg.
Qed.

Lemma startup_inv (P : string -> widget -> Prop) M order g :
  (forall g feat g1,
     add_field g feat = Return g1 ->
     exists w, g1 = with_widgets g (dict_set (widget_vars g) feat w)
                                 (dict_set (error_labels g) feat "")
               /\ P feat w) ->
  startup M order = Return g ->
  forall k w, dict_get (widget_vars g) k = Some w -> P k w.
Proof.
  intros Hadd Hrun. unfold startup in Hrun.
  apply (for_each_add_field_inv P Hadd _ _ _ Hrun).
  intros k w. discriminate.
Qed.

(** X2. When the feature order the desktop application settles on is a
    list of names, it has every required name, and the window opens on a
    form that validates: pressing Predict before touching anything reports
    no input error, and the encoded list has one entry per name.  This is so
    for the fallback order and for any list of names a file gives, whatever
    names it has besides the required ones. *)
Theorem opening_form_validates
    (M : collaborators) (file : sidecar) (v : json) (order : list string) :
  desktop_FEATURE_ORDER file = Return v -> names_of v = Some order ->
  exists g values,
    startup M order = Return g
    /\ FEATURE_ORDER g = order
    /\ (forall f, In f REQUIRED_FEATURES -> In f order)
    /\ gather_and_map_inputs g = Return (true, Vector values)
    /\ List.length values = List.length order.
Proof.
  intros Hfile Hnames.
  destruct (startup_form_ok M order) as (g & Hrun & Ho & Hok & _).
  assert (Hvalid : forall k w, dict_get (widget_vars g) k = Some w ->
                               exists v, encoded_value w = Some v).
  { apply (startup_inv (fun _ w => exists v, encoded_value w = Some v) M order g);
      [|exact Hrun].
    intros g0 feat g1 H. destruct (add_field_fresh _ _ _ H) as (w & ? & _ & ?).
    eauto. }
  destruct (gather_and_map_inputs_spec g Hok)
    as [(Ex & _)|(_ & values & Hgather & HF)].
  - apply existsb_exists in Ex. destruct Ex as (f & Hf & Hfail).
    destruct (form_ok_get g f Hok Hf) as [w Hw].
    destruct (Hvalid _ _ Hw) as [v' Hv].
    unfold fails, field_error in Hfail. rewrite Hw, Hv in Hfail. discriminate.
  - exists g, values. split; [exact Hrun|]. split; [exact Ho|].
    split; [exact (desktop_order_has_required _ _ _ Hfile Hnames)|].
    split; [exact Hgather|].
    rewrite <- Ho. eapply Forall2_same_length; eauto.
Qed.


(** ** Clearing the form *)

Lemma reset_widget_set_var w text :
  (exists t, default_text w = Return t) ->
  reset_widget (set_var w text) = reset_widget w.
Proof.
  intros [t Ht]. destruct w as [var extra|var lo hi]; unfold reset_widget; simpl in *;
    [destruct (dict_keys extra); [discriminate|]|]; reflexivity.
Qed.

Lemma reset_widget_idem w : reset_widget (reset_widget w) = reset_widget w.
Proof.
  unfold reset_widget at 2. destruct (default_text w) eqn:E; [|reflexivity].
  apply reset_widget_set_var. eauto.
Qed.

Lemma clear_label_keeps labels l k :
  dict_get labels k <> None -> dict_get (fold_left clear_label l labels) k <> None.
Proof.
  revert labels. induction l as [|[f w] l IH]; simpl; intros labels H; [exact H|].
  apply IH. unfold clear_label. simpl. destruct (string_dec k f) as [->|Hne].
  - rewrite dict_get_set_eq. discriminate.
  - now rewrite dict_get_set_ne.
Qed.

Lemma clear_label_get labels l k :
  In k (dict_keys l) -> dict_get (fold_left clear_label l labels) k = Some "".
Proof.
  revert labels. induction l as [|[f w] l IH]; simpl; intros labels; [tauto|].
  intros [->|Hin].
  - destruct (in_dec string_dec k (dict_keys l)) as [Hi|Hi]; [now apply IH|].
    clear IH. assert (H : dict_get (clear_label labels (k, w)) k = Some "")
      by apply dict_get_set_eq.
    revert H. generalize (clear_label labels (k, w)). clear labels.
    induction l as [|[f' w'] l IH]; simpl; intros labels H; [exact H|].
    apply IH; [simpl in Hi; tauto|].
    unfold clear_label. simpl. rewrite dict_get_set_ne; [exact H|].
    simpl in Hi. intros ->. tauto.
  - now apply IH.
Qed.

Lemma clear_label_id labels l :
  (forall k, In k (dict_keys l) -> dict_get labels k = Some "") ->
  fold_left clear_label l labels = labels.
Proof.
  induction l as [|[f w] l IH]; simpl; intros H; [reflexivity|].
  unfold clear_label at 2. simpl. rewrite dict_set_same by auto. apply IH. auto.
Qed.

(** The loop of [clear_form], started after the items [pre] have been
    reset. *)
Lemma clear_loop l :
  forall pre labels,
    NoDup (dict_keys (pre ++ l)) ->
    Forall (fun item => (exists text, default_text (snd item) = Return text)
                        /\ dict_get labels (fst item) <> None) l ->
    for_each clear_step l (pre ++ l, labels)
    = Return (pre ++ map reset_item l, fold_left clear_label l labels).
Proof.
  induction l as [|[k w] l IH]; intros pre labels Hnd Hall; [reflexivity|].
  inversion Hall as [|? ? [[text Htext] Hlab] Hrest]; subst. simpl in Htext, Hlab.
  cbn [for_each clear_step]. rewrite Htext. cbn [bind]. unfold dict_getitem.
  destruct (dict_get labels k) as [old|] eqn:El; [|congruence]. cbn [bind].
  assert (Hk : ~ In k (dict_keys pre)).
  { unfold dict_keys in Hnd. rewrite map_app in Hnd. simpl in Hnd.
    apply NoDup_remove_2 in Hnd. intros Hin. apply Hnd. apply in_or_app. now left. }
  rewrite dict_set_middle by assumption.
  replace (pre ++ (k, set_var w text) :: l)
    with ((pre ++ [(k, set_var w text)]) ++ l) by (now rewrite <- app_assoc).
  rewrite IH.
  - rewrite <- app_assoc. simpl. unfold reset_item at 2, reset_widget. simpl.
    now rewrite Htext.
  - unfold dict_keys in *. rewrite !map_app in *. simpl in *.
    now rewrite <- app_assoc.
  - eapply Forall_impl; [|exact Hrest]. intros [k' w'] [Ht Hl]. split; [exact Ht|].
    simpl in *. destruct (string_dec k' k) as [->|Hne].
    + rewrite dict_get_set_eq. discriminate.
    + now rewrite dict_get_set_ne.
Qed.

(** What [clear_form] returns on a state it can work on. *)
Lemma clear_form_spec g :
  clearable g ->
  clear_form g
  = Return (with_widgets g (map reset_item (widget_vars g))
                         (fold_left clear_label (widget_vars g) (error_labels g))).
Proof.
  intros [Hnd Hall]. unfold clear_form.
  change (widget_vars g, error_labels g)
    with ([] ++ widget_vars g, error_labels g).
  rewrite (clear_loop (widget_vars g) [] (error_labels g)); [reflexivity|exact Hnd|].
  eapply Forall_impl; [|exact Hall]. intros [k w] [Ht Hl]. split; [exact Ht|].
  unfold has_label in Hl. simpl in *. destruct (dict_get (error_labels g) k);
    [discriminate|discriminate].
Qed.

Lemma map_reset_dict_set wv feat w text :
  dict_get wv feat = Some w -> (exists t, default_text w = Return t) ->
  map reset_item (dict_set wv feat (set_var w text)) = map reset_item wv.
Proof.
  induction wv as [|[k w'] wv IH]; simpl; [discriminate|].
  destruct (String.eqb feat k) eqn:E; simpl.
  - intros [= ->] Ht. unfold reset_item. simpl. now rewrite reset_widget_set_var.
  - intros H Ht. now rewrite IH.
Qed.

Lemma fold_clear_label_keys l l' labels :
  dict_keys l = dict_keys l' ->
  fold_left clear_label l labels = fold_left clear_label l' labels.
Proof.
  revert l' labels. induction l as [|[k w] l IH]; intros [|[k' w'] l'] labels;
    simpl; try discriminate; [reflexivity|].
  intros [= -> H]. unfold clear_label at 2 4. simpl. now apply IH.
Qed.

Lemma enter_clearable g feat text : clearable g -> clearable (enter g feat text).
Proof.
  intros [Hnd Hall]. split; [now apply enter_form_ok|].
  unfold enter. destruct (dict_get (widget_vars g) feat) as [w|] eqn:E; [|exact Hall].
  simpl. apply Forall_dict_set; [exact Hall|].
  apply dict_get_In in E. rewrite Forall_forall in Hall.
  destruct (Hall _ E) as [[t Ht] Hl]. simpl in *. split; [|exact Hl].
  exists t. now destruct w.
Qed.

(** Typing into a widget is forgotten by [clear_form]. *)
Lemma clear_form_enter g feat text :
  clearable g -> clear_form (enter g feat text) = clear_form g.
Proof.
  intros Hc. rewrite (clear_form_spec _ (enter_clearable g feat text Hc)).
  rewrite (clear_form_spec _ Hc). unfold enter.
  destruct (dict_get (widget_vars g) feat) as [w|] eqn:E; [|reflexivity].
  simpl. rewrite (map_reset_dict_set _ _ _ _ E).
  - rewrite (fold_clear_label_keys _ (widget_vars g)); [reflexivity|].
    eapply dict_keys_set_present; eauto.
  - destruct Hc as [_ Hall]. rewrite Forall_forall in Hall.
    apply dict_get_In in E. now destruct (Hall _ E).
Qed.

Lemma type_in_clearable edits : forall g, clearable g -> clearable (type_in g edits).
Proof.
  induction edits as [|[f t] edits IH]; simpl; intros g Hc; [exact Hc|].
  apply IH. now apply enter_clearable.
Qed.

Lemma clear_form_type_in edits :
  forall g, clearable g -> clear_form (type_in g edits) = clear_form g.
Proof.
  induction edits as [|[f t] edits IH]; simpl; intros g Hc; [reflexivity|].
  rewrite IH by now apply enter_clearable. now apply clear_form_enter.
Qed.

Lemma dict_keys_set_both {V W} (d : dict V) (d' : dict W) k v v' :
  dict_keys d = dict_keys d' ->
  dict_keys (dict_set d k v) = dict_keys (dict_set d' k v').
Proof.
  revert d'. induction d as [|[k0 v0] d IH]; intros [|[k0' v0'] d'];
    simpl; try discriminate; [reflexivity|].
  intros [= -> H]. destruct (String.eqb k k0'); simpl; [now f_equal|].
  f_equal. now apply IH.
Qed.

(** As the form is built the error labels stay in step with the widgets, and
    all are blank. *)
Lemma for_each_add_field_labels l :
  forall g g',
    for_each add_field l g = Return g' ->
    dict_keys (error_labels g) = dict_keys (widget_vars g)
    /\ Forall (fun item => snd item = "") (error_labels g) ->
    dict_keys (error_labels g') = dict_keys (widget_vars g')
    /\ Forall (fun item => snd item = "") (error_labels g').
Proof.
  induction l as [|f l IH]; simpl; intros g g'.
  - now intros [= <-].
  - destruct (add_field g f) as [g1|] eqn:E; simpl; [|discriminate].
    intros Hrun [Hk Hb]. apply (IH _ _ Hrun).
    destruct (add_field_shape _ _ _ E) as (w & -> & _). simpl. split.
    + now apply dict_keys_set_both.
    + now apply Forall_dict_set.
Qed.

(** The form as it opens can be cleared, and clearing it changes nothing. *)
Lemma startup_clearable M order g :
  startup M order = Return g ->
  clearable g /\ clear_form g = Return g.
Proof.
  intros Hrun.
  destruct (startup_form_ok M order) as (g0 & Hrun0 & _ & _ & Hnd & _).
  assert (g0 = g) by congruence. subst g0.
  assert (Hfresh : forall k w, dict_get (widget_vars g) k = Some w ->
                     exists text, default_text w = Return text /\ set_var w text = w).
  { apply (startup_inv
             (fun _ w => exists text, default_text w = Return text
                                      /\ set_var w text = w) M order g);
      [|exact Hrun].
    intros g0 feat g1 H. destruct (add_field_fresh _ _ _ H) as (w & ? & ? & _).
    eauto. }
  destruct (for_each_add_field_labels order _ _ Hrun) as [Hkeys Hblank].
  { simpl. split; [reflexivity|constructor]. }
  assert (Hlab : forall k, In k (dict_keys (widget_vars g)) ->
                           dict_get (error_labels g) k = Some "").
  { intros k Hk. rewrite <- Hkeys in Hk. destruct (dict_key_get _ _ Hk) as [v Hv].
    rewrite Hv. f_equal. apply dict_get_In in Hv. rewrite Forall_forall in Hblank.
    exact (Hblank _ Hv). }
  assert (Hc : clearable g).
  { split; [exact Hnd|]. apply Forall_forall. intros [k w] Hin. simpl. split.
    - destruct (Hfresh k w) as (t & Ht & _); [now apply dict_In_get|eauto].
    - unfold has_label. rewrite Hlab; [reflexivity|].
      change k with (fst (k, w)). now apply in_map. }
  split; [exact Hc|]. rewrite (clear_form_spec _ Hc).
  rewrite clear_label_id by exact Hlab.
  replace (map reset_item (widget_vars g)) with (widget_vars g).
  - now destruct g.
  - rewrite <- (map_id (widget_vars g)) at 1. apply map_ext_in.
    intros [k w] Hin. unfold reset_item, reset_widget. simpl.
    destruct (Hfresh k w) as (t & Ht & Hs); [now apply dict_In_get|].
    now rewrite Ht, Hs.
Qed.

(** X4. Clear brings back the form as it opened: after any run of edits on
    the opening state, [clear_form] returns that very state, every text back
    to its default and every error label blank. *)
Theorem clear_form_restores_the_opening_state
    (M : collaborators) (order : list string) (g0 : app)
    (edits : list (string * string)) :
  startup M order = Return g0 ->
  clear_form (type_in g0 edits) = Return g0.
Proof.
  intros Hrun. destruct (startup_clearable _ _ _ Hrun) as [Hc Hid].
  now rewrite clear_form_type_in.
Qed.

(** X5. [clear_form] is idempotent, and it resets the inputs only: the
    class and the probability of the last prediction stay on display, no
    dialog is shown, and the label of every widget is blank. *)
Theorem clear_form_is_idempotent_and_keeps_the_prediction (g : app) :
  clearable g ->
  exists g',
    clear_form g = Return g'
    /\ clear_form g' = Return g'
    /\ pred_var g' = pred_var g /\ prob_var g' = prob_var g
    /\ dialogs g' = dialogs g
    /\ (forall k, has_widget g k = true -> dict_get (error_labels g') k = Some "").
Proof.
  intros Hc. pose proof Hc as [Hnd Hall].
  set (g' := with_widgets g (map reset_item (widget_vars g))
               (fold_left clear_label (widget_vars g) (error_labels g))).
  assert (Hkeys : dict_keys (map reset_item (widget_vars g)) = dict_keys (widget_vars g)).
  { unfold dict_keys. rewrite map_map. reflexivity. }
  assert (Hc' : clearable g').
  { split; [simpl; now rewrite Hkeys|]. simpl.
    apply Forall_forall. intros item Hin. apply in_map_iff in Hin.
    destruct Hin as ([k w] & <- & Hin). rewrite Forall_forall in Hall.
    destruct (Hall _ Hin) as [[t Ht] Hl]. simpl in *. split.
    - exists t. unfold reset_widget. rewrite Ht. now destruct w.
    - unfold has_label in *. simpl.
      destruct (dict_get (fold_left clear_label (widget_vars g) (error_labels g)) k)
        eqn:E; [reflexivity|].
      exfalso. revert E. apply clear_label_keeps.
      destruct (dict_get (error_labels g) k); [discriminate|discriminate]. }
  exists g'. split; [now apply clear_form_spec|]. split; [|repeat split].
  - rewrite (clear_form_spec _ Hc'). simpl. f_equal. unfold g'.
    rewrite map_map.
    assert (Hidem : map (fun x => reset_item (reset_item x)) (widget_vars g)
                    = map reset_item (widget_vars g)).
    { apply map_ext. intros [k w]. unfold reset_item. cbn [fst snd]. f_equal.
      apply reset_widget_idem. }
    rewrite Hidem.
    rewrite (fold_clear_label_keys (map reset_item (widget_vars g)) (widget_vars g))
      by exact Hkeys.
    rewrite (clear_label_id
               (fold_left clear_label (widget_vars g) (error_labels g))
               (widget_vars g)); [reflexivity|].
    intros k Hk. now apply clear_label_get.
  - intros k Hk. simpl. apply clear_label_get.
    destruct (has_widget_get _ _ Hk) as [w Hw]. eapply dict_get_key; eauto.
Qed.

(** ** What [predict_action] does to the window *)

Lemma dict_get_absent {V} (d : dict V) k :
  ~ In k (dict_keys d) -> dict_get d k = None.
Proof.
  intros Hn. destruct (dict_get d k) as [v|] eqn:E; [|reflexivity].
  exfalso. apply Hn. eapply dict_get_key; eauto.
Qed.

Lemma dict_get_cleared (labels : dict string) k :
  dict_get (map (fun '(feat, _) => (feat, "")) labels) k
  = option_map (fun _ => "") (dict_get labels k).
Proof.
  induction labels as [|[k' v'] labels IH]; simpl; [reflexivity|].
  now destruct (String.eqb k k').
Qed.

(** The loop of [gather_and_map_inputs] repeats no key in [errors]. *)
Lemma gather_loop_NoDup g l :
  forall errors mapped errors' mapped',
    for_each (gather_step g) l (errors, mapped) = Return (errors', mapped') ->
    NoDup (dict_keys errors) -> NoDup (dict_keys errors').
Proof.
  induction l as [|f l IH]; cbn [for_each]; intros errors mapped errors' mapped'.
  - now intros [= <- <-].
  - destruct (gather_step g (errors, mapped) f) as [[e1 m1]|] eqn:E; cbn [bind];
      [|discriminate].
    intros Hrun Hnd. apply (IH _ _ _ _ Hrun).
    destruct (dict_get (widget_vars g) f) as [w|] eqn:Hw.
    + rewrite (gather_step_spec _ _ _ _ _ Hw) in E.
      destruct (encoded_value w); injection E as <- <-;
        [exact Hnd|now apply dict_keys_set].
    + unfold gather_step, dict_getitem in E. rewrite Hw in E. discriminate.
Qed.

Lemma gather_errors_NoDup g ok errors :
  gather_and_map_inputs g = Return (ok, Errors errors) -> NoDup (dict_keys errors).
Proof.
  unfold gather_and_map_inputs, gather_loop.
  destruct (for_each (gather_step g) (FEATURE_ORDER g) ([], []))
    as [[e m]|] eqn:E; simpl; [|discriminate].
  destruct (dict_truthy e).
  - intros [= <- <-]. eapply gather_loop_NoDup; [exact E|constructor].
  - destruct (comprehension _ _); simpl; discriminate.
Qed.

(** The loop that writes the messages into the error labels. *)
Lemma show_errors_loop (errors : dict string) :
  forall labels,
    NoDup (dict_keys errors) ->
    (forall k, In k (dict_keys errors) -> dict_get labels k <> None) ->
    exists labels',
      for_each (fun labels '(feat, msg) =>
                  _ <- dict_getitem labels feat ;;
                  Return (dict_set labels feat msg))
               errors labels = Return labels'
      /\ forall k, dict_get labels' k = match dict_get errors k with
                                        | Some msg => Some msg
                                        | None => dict_get labels k
                                        end.
Proof.
  induction errors as [|[k0 m0] errors IH]; simpl; intros labels Hnd Hlab.
  - exists labels. auto.
  - inversion Hnd as [|? ? Hk0 Hnd']; subst.
    unfold dict_getitem at 1.
    destruct (dict_get labels k0) as [old|] eqn:E0;
      [|exfalso; apply (Hlab k0); auto].
    cbn [bind].
    destruct (IH (dict_set labels k0 m0) Hnd') as (labels' & Hrun & Hget).
    { intros k Hk. destruct (string_dec k k0) as [->|Hne].
      - rewrite dict_get_set_eq. discriminate.
      - rewrite dict_get_set_ne by assumption. auto. }
    exists labels'. split; [exact Hrun|]. intros k. rewrite Hget.
    destruct (String.eqb k k0) eqn:E.
    + apply String.eqb_eq in E. subst k.
      rewrite (dict_get_absent errors k0 Hk0). apply dict_get_set_eq.
    + apply String.eqb_neq in E. now rewrite dict_get_set_ne.
Qed.

(** [predict_action] on a form with a failing field. *)
Lemma predict_action_on_invalid g :
  form_ok g = true -> labels_ok g = true ->
  existsb (fails g) (FEATURE_ORDER g) = true ->
  exists g',
    predict_action g = Return g'
    /\ dialogs g' = dialogs g ++ [InputError]
    /\ pred_var g' = pred_var g /\ prob_var g' = prob_var g
    /\ FEATURE_ORDER g' = FEATURE_ORDER g /\ widget_vars g' = widget_vars g
    /\ (forall feat, In feat (FEATURE_ORDER g) ->
          dict_get (error_labels g') feat
          = Some match field_error g feat with
                 | Some msg => msg
                 | None => ""
                 end)
    /\ (forall feat, ~ In feat (FEATURE_ORDER g) ->
          dict_get (error_labels g') feat
          = option_map (fun _ => "") (dict_get (error_labels g) feat)).
Proof.
  intros Hok Hlab Hfail.
  destruct (gather_and_map_inputs_spec g Hok)
    as [(_ & errors & Hrun & _ & Hin & Hout)|(Ex & _)]; [|congruence].
  pose proof (gather_errors_NoDup _ _ _ Hrun) as Hnd.
  assert (Hfo : forall k, In k (FEATURE_ORDER g) ->
                          dict_get (error_labels g) k <> None).
  { intros k Hk. unfold labels_ok in Hlab. rewrite forallb_forall in Hlab.
    specialize (Hlab _ Hk). unfold has_label in Hlab.
    destruct (dict_get (error_labels g) k); [discriminate|discriminate]. }
  destruct (show_errors_loop errors
              (map (fun '(feat, _) => (feat, "")) (error_labels g)) Hnd)
    as (labels' & Hshow & Hget).
  { intros k Hk. rewrite dict_get_cleared.
    destruct (in_dec string_dec k (FEATURE_ORDER g)) as [Hi|Hi].
    - specialize (Hfo _ Hi). destruct (dict_get (error_labels g) k);
        [discriminate|tauto].
    - destruct (dict_key_get _ _ Hk) as [m Hm]. rewrite (Hout _ Hi) in Hm.
      discriminate. }
  unfold predict_action. rewrite gather_ignores_error_labels, Hrun. cbn [bind].
  cbn [error_labels with_error_labels with_widgets]. rewrite Hshow. cbn [bind].
  eexists. split; [reflexivity|]. cbn. repeat split.
  - intros feat Hf. rewrite Hget, (Hin _ Hf).
    destruct (field_error g feat); [reflexivity|].
    rewrite dict_get_cleared. specialize (Hfo _ Hf).
    destruct (dict_get (error_labels g) feat); [reflexivity|tauto].
  - intros feat Hf. rewrite Hget, (Hout _ Hf). apply dict_get_cleared.
Qed.

(** X6. With a failing field, [predict_action] shows the one "Input Error"
    dialog and leaves the class and the probability as they were; the label
    of each feature of the order then reads the message of its own field if
    that field fails and is blank otherwise, so that messages of an earlier
    run do not stay. *)
Theorem invalid_input_is_reported_field_by_field (g : app) :
  form_ok g = true -> labels_ok g = true ->
  existsb (fails g) (FEATURE_ORDER g) = true ->
  exists g',
    predict_action g = Return g'
    /\ dialogs g' = dialogs g ++ [InputError]
    /\ pred_var g' = pred_var g /\ prob_var g' = prob_var g
    /\ (forall feat, In feat (FEATURE_ORDER g) ->
          dict_get (error_labels g') feat
          = Some match field_error g feat with
                 | Some msg => msg
                 | None => ""
                 end).
Proof.
  intros Hok Hlab Hfail.
  destruct (predict_action_on_invalid g Hok Hlab Hfail)
    as (g' & Hrun & Hd & Hp & Hq & _ & _ & Hl & _).
  exists g'. auto.
Qed.

(** [predict_action] on a form whose fields all validate. *)
Lemma predict_action_on_valid g values :
  gather_and_map_inputs g = Return (true, Vector values) ->
  predict_action g
  = Return (report_failure
              (with_error_labels g
                 (map (fun '(feat, _) => (feat, "")) (error_labels g)))
              (run_model
                 (with_error_labels g
                    (map (fun '(feat, _) => (feat, "")) (error_labels g)))
                 (Return {| columns := FEATURE_ORDER g;
                            row := map Some values |}))).
Proof.
  intros Hrun. destruct (gather_vector_length _ _ _ Hrun) as [_ Hlen].
  unfold predict_action. rewrite gather_ignores_error_labels, Hrun. cbn [bind].
  unfold DataFrame_of_list. cbn [FEATURE_ORDER with_error_labels with_widgets].
  now rewrite Hlen, Nat.eqb_refl.
Qed.

(** X7. When the fields validate but the prediction fails, because pandas
    cannot be imported or [predict] raises, [predict_action] shows the one
    "Prediction error" dialog with that exception and changes neither the
    class nor the probability on display, even if [predict_proba] had
    answered; the error labels are blank. *)
Theorem prediction_failure_is_reported (g : app) (values : list pyval) (e : exn) :
  gather_and_map_inputs g = Return (true, Vector values) ->
  import_pandas (MODEL g) = Raise e
  \/ (import_pandas (MODEL g) = Return tt
      /\ predict (MODEL g)
           {| columns := FEATURE_ORDER g; row := map Some values |} = Raise e) ->
  exists g',
    predict_action g = Return g'
    /\ dialogs g' = dialogs g ++ [PredictionError e]
    /\ pred_var g' = pred_var g /\ prob_var g' = prob_var g
    /\ forall feat,
         dict_get (error_labels g') feat
         = option_map (fun _ => "") (dict_get (error_labels g) feat).
Proof.
  intros Hrun Hfail. rewrite (predict_action_on_valid _ _ Hrun).
  unfold run_model. cbn [MODEL FEATURE_ORDER with_error_labels with_widgets].
  destruct Hfail as [Hi|[Hi Hp]]; rewrite Hi; cbn [bind].
  - eexists. split; [reflexivity|]. cbn. repeat split. apply dict_get_cleared.
  - rewrite Hp. destruct (predict_proba _ _); cbn [bind report_failure];
      (eexists; split; [reflexivity|]; cbn; repeat split; apply dict_get_cleared).
Qed.

(** X8. On a form in which every feature has its widget and its error
    label, [predict_action] returns, whatever the texts and whichever
    exception of the classes of [exn] (all under [Exception]) pandas or the
    classifier raises: the handler [except Exception] catches it.  The call
    shows at most one dialog, leaves the order and the widgets as they are,
    and leaves the form in the same good state, so Predict can be pressed
    again.  A [KeyboardInterrupt] or [SystemExit] coming out of the
    classifier is not caught by that handler and is outside the model. *)
Theorem predict_action_returns_on_a_well_formed_form (g : app) :
  form_ok g = true -> labels_ok g = true ->
  exists g',
    predict_action g = Return g'
    /\ FEATURE_ORDER g' = FEATURE_ORDER g /\ widget_vars g' = widget_vars g
    /\ form_ok g' = true /\ labels_ok g' = true
    /\ (dialogs g' = dialogs g \/ exists d, dialogs g' = dialogs g ++ [d]).
Proof.
  intros Hok Hlab.
  assert (Hkeep : forall g',
            FEATURE_ORDER g' = FEATURE_ORDER g -> widget_vars g' = widget_vars g ->
            (forall k, In k (FEATURE_ORDER g) -> dict_get (error_labels g') k <> None) ->
            form_ok g' = true /\ labels_ok g' = true).
  { intros g' Ho Hw Hl. unfold form_ok, labels_ok, has_widget, has_label in *.
    rewrite Ho, Hw. split; [exact Hok|]. apply forallb_forall. intros k Hk.
    specialize (Hl _ Hk). destruct (dict_get (error_labels g') k); [reflexivity|tauto]. }
  assert (Hfo : forall k, In k (FEATURE_ORDER g) ->
                          option_map (fun _ : string => "") (dict_get (error_labels g) k)
                          <> None).
  { intros k Hk. unfold labels_ok in Hlab. rewrite forallb_forall in Hlab.
    specialize (Hlab _ Hk). unfold has_label in Hlab.
    destruct (dict_get (error_labels g) k); [discriminate|discriminate]. }
  destruct (gather_and_map_inputs_spec g Hok)
    as [(Ex & _)|(_ & values & Hrun & _)].
  - destruct (predict_action_on_invalid g Hok Hlab Ex)
      as (g' & Hrun & Hd & _ & _ & Ho & Hw & Hl & _).
    exists g'. split; [exact Hrun|]. split; [exact Ho|]. split; [exact Hw|].
    destruct (Hkeep g' Ho Hw) as [H1 H2].
    { intros k Hk. rewrite (Hl _ Hk). discriminate. }
    repeat split; eauto.
  - rewrite (predict_action_on_valid _ _ Hrun).
    eexists. split; [reflexivity|].
    unfold run_model. cbn [MODEL FEATURE_ORDER with_error_labels with_widgets].
    destruct (import_pandas (MODEL g)); cbn [bind];
      [destruct (predict (MODEL g) _); cbn [bind]|];
      cbn [report_failure];
      (split; [reflexivity|]; split; [reflexivity|]);
      (match goal with
       | |- form_ok ?a = true /\ labels_ok ?a = true /\ _ =>
           destruct (Hkeep a eq_refl eq_refl) as [H1 H2];
           [intros k Hk; cbn; rewrite dict_get_cleared; now apply Hfo|]
       end);
      (split; [exact H1|]; split; [exact H2|]); cbn; eauto.
Qed.

(** The form as it opens has an error label for every feature. *)
Lemma startup_labels_ok M order g : startup M order = Return g -> labels_ok g = true.
Proof.
  intros Hrun.
  destruct (startup_form_ok M order) as (g0 & Hrun0 & _ & Hok & _).
  assert (g0 = g) by congruence. subst g0.
  destruct (for_each_add_field_labels order _ _ Hrun) as [Hkeys _].
  { simpl. split; [reflexivity|constructor]. }
  unfold labels_ok. apply forallb_forall. intros k Hk.
  destruct (form_ok_get g k Hok Hk) as [w Hw]. apply dict_get_key in Hw.
  rewrite <- Hkeys in Hw. destruct (dict_key_get _ _ Hw) as [v Hv].
  unfold has_label. now rewrite Hv.
Qed.

(** ** The Streamlit form and its validation *)

Lemma validate_inputs_nil inp :
  validate_inputs inp = [] <->
  forall f, In f REQUIRED_FEATURES -> dict_get inp f <> None.
Proof.
  unfold validate_inputs. generalize REQUIRED_FEATURES as names.
  induction names as [|f names IH]; simpl.
  - split; [intros _ f []|reflexivity].
  - destruct (dict_get inp f) as [v|] eqn:E; simpl.
    + rewrite IH. split.
      * intros H f' [<-|Hin]; [congruence|auto].
      * auto.
    + split; [discriminate|]. intros H. exfalso. apply (H f); auto.
Qed.

Lemma validate_inputs_mentions inp f :
  In f REQUIRED_FEATURES -> dict_get inp f = None ->
  In ("Missing " ++ f)%string (validate_inputs inp).
Proof.
  intros Hin Hnone. unfold validate_inputs. apply in_flat_map.
  exists f. split; [exact Hin|]. rewrite Hnone. now left.
Qed.

(** X9. The Streamlit validation passes exactly when every required feature
    is a key of the inputs.  When one is missing, the page shows a single
    error that names it, and the classifier is not consulted: the page is
    the same whatever the classifier. *)
Theorem streamlit_validation_requires_every_feature (inp : dict pyval) :
  (validate_inputs inp = [] <->
   forall f, In f REQUIRED_FEATURES -> dict_get inp f <> None)
  /\ (forall f, In f REQUIRED_FEATURES -> dict_get inp f = None ->
        In ("Missing " ++ f)%string (validate_inputs inp)
        /\ forall M M' order,
             st_submitted M order inp
             = [ st_error ("Validation errors: "
                           ++ String.concat "; " (validate_inputs inp)) ]
             /\ st_submitted M order inp = st_submitted M' order inp).
Proof.
  split; [apply validate_inputs_nil|].
  intros f Hin Hnone. pose proof (validate_inputs_mentions _ _ Hin Hnone) as Hm.
  split; [exact Hm|]. intros M M' order. unfold st_submitted.
  destruct (validate_inputs inp); [destruct Hm|]. split; reflexivity.
Qed.

(** One turn of the loop of the form adds the feature as a new key, at the
    end, and fails on a key that is there. *)
Lemma st_field_adds a inputs shown feat inputs' shown' :
  st_field a (inputs, shown) feat = Return (inputs', shown') ->
  dict_get inputs feat = None
  /\ exists v, inputs' = inputs ++ [(feat, v)].
Proof.
  unfold st_field.
  destruct (match dict_get ST_FIELD_INFO feat with
            | Some (label, opts) => (label, opts, shown)
            | None => _
            end) as [[label opts] shown1].
  destruct (dict_get inputs feat) as [old|] eqn:E; [discriminate|].
  destruct opts as [opts|].
  - destruct (selectbox a feat (dict_keys opts)) as [sel|]; [|discriminate].
    destruct (dict_getitem opts sel) as [v|]; cbn [bind]; [|discriminate].
    intros [= <- <-]. split; [reflexivity|]. exists v. now apply dict_set_absent.
  - intros [= <- <-]. split; [reflexivity|]. eexists. now apply dict_set_absent.
Qed.

Lemma st_form_loop a l :
  forall inputs shown inputs' shown',
    for_each (st_field a) l (inputs, shown) = Return (inputs', shown') ->
    dict_keys inputs' = dict_keys inputs ++ l
    /\ (NoDup (dict_keys inputs) -> NoDup (dict_keys inputs')).
Proof.
  induction l as [|f l IH]; cbn [for_each]; intros inputs shown inputs' shown'.
  - intros [= <- <-]. rewrite app_nil_r. auto.
  - destruct (st_field a (inputs, shown) f) as [[i1 s1]|] eqn:E; cbn [bind];
      [|discriminate].
    intros Hrun. destruct (st_field_adds _ _ _ _ _ _ E) as (Hnone & v & ->).
    destruct (IH _ _ _ _ Hrun) as [Hkeys Hnd].
    assert (Hk1 : dict_keys (inputs ++ [(f, v)]) = dict_keys inputs ++ [f])
      by (unfold dict_keys; now rewrite map_app).
    rewrite Hk1 in *. split.
    + rewrite Hkeys. now rewrite <- app_assoc.
    + intros H0. apply Hnd. apply NoDup_app_remove_l with (l := []). simpl.
      rewrite <- (rev_involutive (dict_keys inputs ++ [f])).
      apply NoDup_rev. rewrite rev_app_distr. simpl. constructor.
      * rewrite <- in_rev. intros Hin.
        destruct (dict_key_get _ _ Hin) as [v0 Hv0]. congruence.
      * now apply NoDup_rev.
Qed.

(** X10. When the Streamlit form is built, the keys of [inputs] are the
    features of the order, in that order, each once; an order that repeats
    a feature does not get that far.  So the validation passes exactly when
    the order has every required feature, and with an order that omits one
    every submission ends in the validation error, never in a prediction. *)
Theorem streamlit_form_follows_the_order
    (a : st_answers) (order : list string) (inputs : dict pyval)
    (shown : list st_event) :
  st_form a order = Return (inputs, shown) ->
  dict_keys inputs = order /\ NoDup order
  /\ (validate_inputs inputs = [] <->
      forall f, In f REQUIRED_FEATURES -> In f order)
  /\ (forall f M, In f REQUIRED_FEATURES -> ~ In f order ->
        st_submitted M order inputs
        = [ st_error ("Validation errors: "
                      ++ String.concat "; " (validate_inputs inputs)) ]).
Proof.
  intros Hrun. unfold st_form in Hrun.
  destruct (st_form_loop _ _ _ _ _ _ Hrun) as [Hkeys Hnd]. simpl in Hkeys.
  assert (Hget : forall f, dict_get inputs f <> None <-> In f order).
  { intros f. rewrite <- Hkeys. split.
    - destruct (dict_get inputs f) as [v|] eqn:E; [|tauto].
      intros _. eapply dict_get_key; eauto.
    - intros Hin. destruct (dict_key_get _ _ Hin) as [v ->]. discriminate. }
  split; [exact Hkeys|]. split; [rewrite <- Hkeys; apply Hnd; constructor|]. split.
  - rewrite validate_inputs_nil. split; intros H f Hf; apply Hget; auto.
  - intros f M Hf Hn. unfold st_submitted.
    destruct (validate_inputs inputs) eqn:E; [|reflexivity].
    exfalso. apply Hn. apply Hget. rewrite validate_inputs_nil in E. auto.
Qed.

Lemma ST_FIELD_INFO_nonempty feat label opts :
  dict_get ST_FIELD_INFO feat = Some (label, Some opts) ->
  exists first rest, dict_keys opts = first :: rest.
Proof.
  intros E. apply dict_get_In in E. vm_compute in E.
  repeat (destruct E as [E|E];
          [first [discriminate E
                 | injection E as <- <- <-; eexists; eexists; reflexivity]|]);
    try contradiction.
Qed.

Lemma dict_get_app_l {V} (d d' : dict V) k v :
  dict_get d k = Some v -> dict_get (d ++ d') k = Some v.
Proof.
  induction d as [|[k' v'] d IH]; simpl; [discriminate|].
  destruct (String.eqb k k'); auto.
Qed.

Lemma dict_get_app_r {V} (d : dict V) k v :
  dict_get d k = None -> dict_get (d ++ [(k, v)]) k = Some v.
Proof.
  induction d as [|[k' v'] d IH]; simpl.
  - now rewrite String.eqb_refl.
  - destruct (String.eqb k k'); [discriminate|auto].
Qed.

(** One turn of the loop of the form, for a feature that is no key yet and a
    user who picks listed options. *)
Lemma st_field_returns a inputs shown feat :
  picks_listed_options a -> dict_get inputs feat = None ->
  exists v shown',
    st_field a (inputs, shown) feat = Return (inputs ++ [(feat, v)], shown')
    /\ match st_catalog_choices feat with
       | Some opts =>
           exists sel, selectbox a feat (dict_keys opts) = Some sel
                       /\ dict_get opts sel = Some v
       | None => exists n, v = PyInt n
       end.
Proof.
  intros Hpick Hnone. unfold st_field.
  pose proof (Hpick feat) as Hp. unfold st_catalog_choices in *.
  destruct (dict_get ST_FIELD_INFO feat) as [[label [opts|]]|] eqn:E;
    rewrite Hnone.
  - assert (Hsel : exists sel, selectbox a feat (dict_keys opts) = Some sel
                               /\ In sel (dict_keys opts)).
    { unfold selectbox. destruct (selected a feat) as [sel|] eqn:Es.
      - exists sel. split; [reflexivity|]. now apply (Hp opts).
      - destruct (ST_FIELD_INFO_nonempty _ _ _ E) as (k & rest & Hk).
        rewrite Hk. exists k. split; [reflexivity|]. now left. }
    destruct Hsel as (sel & Hs & Hin). rewrite Hs.
    destruct (dict_key_get _ _ Hin) as [v Hv].
    unfold dict_getitem. rewrite Hv. cbn [bind].
    exists v, shown. rewrite (dict_set_absent _ _ _ Hnone). eauto.
  - unfold number_input.
    destruct (String.eqb feat "age");
      [|destruct (String.eqb feat "absences");
        [|destruct (String.eqb feat "G1" || String.eqb feat "G2")]];
      destruct (number a feat); eexists; eexists;
      rewrite (dict_set_absent _ _ _ Hnone); eauto.
  - unfold number_input.
    destruct (String.eqb feat "age");
      [|destruct (String.eqb feat "absences");
        [|destruct (String.eqb feat "G1" || String.eqb feat "G2")]];
      destruct (number a feat); eexists; eexists;
      rewrite (dict_set_absent _ _ _ Hnone); eauto.
Qed.

Lemma st_form_loop_returns a l :
  picks_listed_options a -> NoDup l ->
  forall inputs shown,
    (forall f, In f l -> dict_get inputs f = None) ->
    exists inputs' shown',
      for_each (st_field a) l (inputs, shown) = Return (inputs', shown')
      /\ forall f, In f l ->
           exists v, dict_get inputs' f = Some v
                     /\ match st_catalog_choices f with
                        | Some opts =>
                            exists sel, selectbox a f (dict_keys opts) = Some sel
                                        /\ dict_get opts sel = Some v
                        | None => exists n, v = PyInt n
                        end.
Proof.
  intros Hpick. induction l as [|f l IH]; intros Hnd inputs shown Hfree.
  - exists inputs, shown. split; [reflexivity|]. intros f [].
  - inversion Hnd as [|? ? Hf Hnd']; subst.
    destruct (st_field_returns a inputs shown f Hpick) as (v & shown1 & Hstep & Hv);
      [apply Hfree; now left|].
    cbn [for_each]. rewrite Hstep. cbn [bind].
    destruct (IH Hnd' (inputs ++ [(f, v)]) shown1) as (inputs' & shown' & Hrun & Hall).
    { intros f' Hf'. destruct (dict_get (inputs ++ [(f, v)]) f') as [v'|] eqn:E;
        [|reflexivity].
      exfalso. apply dict_get_key in E. unfold dict_keys in E. rewrite map_app in E.
      apply in_app_or in E. destruct E as [E|[<-|[]]]; [|tauto].
      destruct (dict_key_get _ _ E) as [v0 Hv0].
      rewrite Hfree in Hv0 by now right. discriminate. }
    exists inputs', shown'. split; [exact Hrun|].
    intros f' [<-|Hf']; [|now apply Hall].
    exists v. split; [|exact Hv].
    destruct (st_form_loop _ _ _ _ _ _ Hrun) as [Hkeys _].
    assert (H0 : dict_get (inputs ++ [(f, v)]) f = Some v)
      by (apply dict_get_app_r, Hfree; now left).
    clear - Hrun H0. revert Hrun H0.
    generalize (inputs ++ [(f, v)]) as i0. generalize shown1 as s0.
    induction l as [|f1 l IHl]; cbn [for_each]; intros s0 i0.
    + now intros [= <- <-].
    + destruct (st_field a _ f1) as [[i1 s1]|] eqn:E1; cbn [bind];
        [|discriminate].
      intros Hrun H0. destruct (st_field_adds _ _ _ _ _ _ E1) as (_ & v1 & ->).
      apply (IHl _ _ Hrun). now apply dict_get_app_l.
Qed.

(** X11. For an order without repetition and a user who picks listed
    options, the Streamlit form is built without error and gives every
    feature of the order its value: the encoded value of the option picked
    for a feature with choices, an integer for any other. *)
Theorem streamlit_form_collects_every_feature
    (a : st_answers) (order : list string) :
  NoDup order -> picks_listed_options a ->
  exists inputs shown,
    st_form a order = Return (inputs, shown)
    /\ forall f, In f order ->
         exists v, dict_get inputs f = Some v
                   /\ match st_catalog_choices f with
                      | Some opts =>
                          exists sel, selectbox a f (dict_keys opts) = Some sel
                                      /\ dict_get opts sel = Some v
                      | None => exists n, v = PyInt n
                      end.
Proof.
  intros Hnd Hpick. apply st_form_loop_returns; auto.
Qed.

(** X12. The two applications agree on the catalog: for every feature name
    the Streamlit table gives the same choices as the desktop one, or none
    in both.  So an option picked for a feature is encoded by the same value
    in both applications. *)
Theorem both_applications_encode_alike (feat : string) :
  st_catalog_choices feat = catalog_choices feat
  /\ forall opts sel v,
       catalog_choices feat = Some opts -> dict_get opts sel = Some v ->
       v <> PyNone ->
       encoded_value (dropdown sel opts) = Some v
       /\ exists opts', st_catalog_choices feat = Some opts'
                        /\ dict_getitem opts' sel = Return v.
Proof.
  assert (Hsame : st_catalog_choices feat = catalog_choices feat).
  { unfold st_catalog_choices, catalog_choices.
    assert (H : forall d : dict (string * option (dict pyval)),
              match dict_get d feat with
              | Some (_, opts) => opts
              | None => None
              end
              = match dict_get (map (fun item => (fst item, snd (snd item))) d) feat with
                | Some opts => opts
                | None => None
                end).
    { intros d. rewrite dict_get_map_values. now destruct (dict_get d feat) as [[]|]. }
    rewrite (H ST_FIELD_INFO), (H FIELD_INFO_MAP). reflexivity. }
  split; [exact Hsame|].
  intros opts sel v Hc Hv Hn. split.
  - simpl. rewrite Hv. now destruct v.
  - exists opts. split; [congruence|]. unfold dict_getitem. now rewrite Hv.
Qed.

(** ** A complete feature-order file *)

(** The warnings of the form are those of the features of the order that the
    Streamlit catalog does not know, one for each, in the order. *)
Lemma st_form_loop_warnings a l :
  forall inputs shown inputs' shown',
    for_each (st_field a) l (inputs, shown) = Return (inputs', shown') ->
    shown' = shown ++ flat_map missing_mapping l.
Proof.
  induction l as [|f l IH]; cbn [for_each flat_map]; intros inputs shown inputs' shown'.
  - intros [= <- <-]. now rewrite app_nil_r.
  - destruct (st_field a (inputs, shown) f) as [[i1 s1]|] eqn:E; cbn [bind];
      [|discriminate].
    intros Hrun. rewrite (IH _ _ _ _ Hrun). rewrite app_assoc. f_equal.
    clear Hrun IH. unfold st_field, missing_mapping in *.
    destruct (dict_get ST_FIELD_INFO f) as [[label opts]|].
    + rewrite app_nil_r.
      destruct (dict_get inputs f); [discriminate|].
      destruct opts as [opts|].
      * destruct (selectbox a f (dict_keys opts)); [|discriminate].
        destruct (dict_getitem opts _); cbn [bind] in E; [|discriminate].
        now injection E as <- <-.
      * now injection E as <- <-.
    + destruct (dict_get inputs f); [discriminate|].
      now injection E as <- <-.
Qed.

(** The Streamlit catalog knows the required features and no other. *)
Lemma missing_mapping_required f :
  missing_mapping f = [] <-> In f REQUIRED_FEATURES.
Proof.
  unfold missing_mapping.
  change REQUIRED_FEATURES with (dict_keys ST_FIELD_INFO).
  destruct (dict_get ST_FIELD_INFO f) as [info|] eqn:E.
  - split; [intros _|reflexivity]. eapply dict_get_key; eauto.
  - split; [discriminate|]. intros Hin.
    destruct (dict_key_get _ _ Hin) as [info Hinfo]. congruence.
Qed.

(** X13. A feature-order file holding a list with every required name is
    taken as it is written, in its own order and with whatever else it
    lists: the desktop application takes it for [FEATURE_ORDER], and the
    Streamlit application keeps it and shows no warning about the order when
    it loads.  When the list is a list of names, the desktop form is built
    on it, and the Streamlit form shows one "Missing UI mapping" warning for
    each name outside its catalog, that is for each occurrence of a name
    that is not required, and no other; the inputs it collects pass the
    validation; and a list that repeats a name makes the building of the
    Streamlit form fail. *)
Theorem complete_feature_order_is_used_as_written (items : list json) :
  (forall f, In f REQUIRED_FEATURES -> In (JString f) items) ->
  desktop_FEATURE_ORDER (Loaded (JArray items)) = Return (JArray items)
  /\ (forall model,
        streamlit_load (Return model) (Loaded (JArray items))
        = Return (Running model (JArray items) []))
  /\ (forall order,
        names_of (JArray items) = Some order ->
        (forall M, exists g,
            startup M order = Return g /\ FEATURE_ORDER g = order
            /\ form_ok g = true)
        /\ (forall a inputs shown,
              st_form a order = Return (inputs, shown) ->
              shown = flat_map missing_mapping order
              /\ validate_inputs inputs = [])
        /\ (forall f, missing_mapping f = [] <-> In f REQUIRED_FEATURES)
        /\ (NoDup order -> forall a, picks_listed_options a ->
              exists inputs,
                st_form a order = Return (inputs, flat_map missing_mapping order))
        /\ (~ NoDup order -> forall a, exists e, st_form a order = Raise e)).
Proof.
  intros Hall.
  assert (H : all_in REQUIRED_FEATURES (JArray items) = Return true).
  { rewrite all_in_array. f_equal. apply forallb_forall. intros f Hf.
    apply existsb_exists. exists (JString f). split; [now apply Hall|].
    simpl. apply String.eqb_refl. }
  split; [|split].
  - unfold desktop_FEATURE_ORDER. cbn [path_exists json_load bind].
    now rewrite H.
  - intros model. unfold streamlit_load, load_artifacts.
    cbn [path_exists json_load bind]. now rewrite H.
  - intros order Hnames. simpl in Hnames.
    assert (Hreq : forall f, In f REQUIRED_FEATURES -> In f order)
      by (intros f Hf; apply (names_of_items_In _ _ Hnames), Hall, Hf).
    assert (Hshown : forall a inputs shown,
              st_form a order = Return (inputs, shown) ->
              shown = flat_map missing_mapping order /\ NoDup order
              /\ dict_keys inputs = order).
    { intros a inputs shown Hrun. unfold st_form in Hrun.
      destruct (st_form_loop _ _ _ _ _ _ Hrun) as [Hkeys Hnd]. simpl in Hkeys.
      split; [exact (st_form_loop_warnings _ _ _ _ _ _ Hrun)|].
      split; [rewrite <- Hkeys; apply Hnd; constructor|exact Hkeys]. }
    split; [|split; [|split; [|split]]].
    + intros M. destruct (startup_form_ok M order) as (g & Hrun & Ho & Hok & _).
      eauto.
    + intros a inputs shown Hrun.
      destruct (Hshown _ _ _ Hrun) as (Hs & _ & Hkeys).
      split; [exact Hs|]. apply validate_inputs_nil. intros f Hf.
      apply Hreq in Hf. rewrite <- Hkeys in Hf.
      destruct (dict_key_get _ _ Hf) as [v0 ->]. discriminate.
    + exact missing_mapping_required.
    + intros Hnd a Hpick.
      destruct (st_form_loop_returns a order Hpick Hnd [] [])
        as (inputs & shown & Hrun & _); [reflexivity|].
      exists inputs. destruct (Hshown a inputs shown Hrun) as (<- & _).
      exact Hrun.
    + intros Hnd a. destruct (st_form a order) as [[inputs shown]|e] eqn:E.
      * destruct (Hshown _ _ _ E) as (_ & Hnd' & _). contradiction.
      * eauto.
Qed.

(** ** The frame the Streamlit application sends, and its failures *)

Lemma map_dict_get_keys {V} (d : dict V) :
  NoDup (dict_keys d) ->
  map (dict_get d) (dict_keys d) = map (fun item => Some (snd item)) d.
Proof.
  induction d as [|[k v] d IH]; simpl; intros Hnd; [reflexivity|].
  inversion Hnd as [|? ? Hk Hd]; subst. rewrite String.eqb_refl. f_equal.
  rewrite <- (IH Hd). apply map_ext_in. intros k' Hk'.
  destruct (String.eqb k' k) eqn:E; [|reflexivity].
  apply String.eqb_eq in E. subst. tauto.
Qed.

(** X14. The frame the Streamlit application gives the classifier has the
    features of the order for columns and, cell by cell in the same order,
    the values the form collected: no cell is missing and none is out of
    place. *)
Theorem streamlit_frame_is_aligned
    (a : st_answers) (order : list string) (inputs : dict pyval)
    (shown : list st_event) :
  st_form a order = Return (inputs, shown) ->
  columns (DataFrame_of_dict inputs order) = order
  /\ row (DataFrame_of_dict inputs order) = map (fun item => Some (snd item)) inputs
  /\ map fst inputs = order.
Proof.
  intros Hrun. unfold st_form in Hrun.
  destruct (st_form_loop _ _ _ _ _ _ Hrun) as [Hkeys Hnd]. simpl in Hkeys.
  split; [reflexivity|]. split; [|exact Hkeys].
  simpl. rewrite <- Hkeys. apply map_dict_get_keys. apply Hnd. constructor.
Qed.

(** X15. In the Streamlit application, when the inputs pass the validation
    and [predict] raises, the page shows the failure and the exception and
    no metric at all, not even the probability when [predict_proba] had
    answered. *)
Theorem streamlit_prediction_failure_shows_no_metric
    (M : collaborators) (order : list string) (inputs : dict pyval) (e : exn) :
  validate_inputs inputs = [] ->
  predict M (DataFrame_of_dict inputs order) = Raise e ->
  st_submitted M order inputs
  = [ st_error_about "Prediction failed" e; st_exception e ].
Proof.
  intros Hv Hp. unfold st_submitted, st_run_model. rewrite Hv, Hp.
  now destruct (predict_proba M _).
Qed.

(** X16. A feature-order file that holds a JSON scalar (null, a boolean or a
    number) is no list to look into: the membership test raises a
    [TypeError].  The desktop application catches it and falls back to
    [REQUIRED_FEATURES]; the Streamlit application makes the test outside
    its [try] and the exception ends the script. *)
Theorem scalar_feature_order_file (v : json) :
  match v with
  | JNull | JBool _ | JInt _ | JFloat _ => True
  | JString _ | JArray _ | JObject _ => False
  end ->
  desktop_FEATURE_ORDER (Loaded v) = Return REQUIRED_FEATURES_copy
  /\ forall model, streamlit_load (Return model) (Loaded v) = Raise TypeError.
Proof.
  destruct v; intros H; try contradiction; split; reflexivity.
Qed.

End Pipeline.

(** * The theorems at work

    Each theorem with a hypothesis is applied here to a form or a file of the
    applications, with [sample_unicode] for the Unicode database. *)

#[local] Existing Instance sample_unicode.

Lemma encoded_vector_complete_witness :
  forallb (validates (opened sample_model))
          (FEATURE_ORDER (opened sample_model)) = true
  /\ exists values,
       gather_and_map_inputs (opened sample_model) = Return (true, Vector values)
       /\ List.length values = List.length (FEATURE_ORDER (opened sample_model))
       /\ (forall i feat,
             nth_error (FEATURE_ORDER (opened sample_model)) i = Some feat ->
             exists w, dict_get (widget_vars (opened sample_model)) feat = Some w
                       /\ nth_error values i = encoded_value w)
       /\ (forall wv', NoDup (dict_keys (widget_vars (opened sample_model))) ->
             Permutation (widget_vars (opened sample_model)) wv' ->
             gather_and_map_inputs
               (with_widgets (opened sample_model) wv'
                             (error_labels (opened sample_model)))
             = Return (true, Vector values)).
Proof.
  split; [vm_compute; reflexivity|].
  apply (encoded_vector_complete_in_schema_order (opened sample_model)).
  vm_compute; reflexivity.
Defined.

Lemma errors_accumulate_witness :
  form_ok (enter (enter (opened sample_model) "age" "abc") "Medu" "college") = true
  /\ exists ok p,
       gather_and_map_inputs
         (enter (enter (opened sample_model) "age" "abc") "Medu" "college")
       = Return (ok, p)
       /\ (ok = false <->
           exists feat,
             In feat (FEATURE_ORDER
                        (enter (enter (opened sample_model) "age" "abc")
                               "Medu" "college"))
             /\ fails (enter (enter (opened sample_model) "age" "abc")
                             "Medu" "college") feat = true)
       /\ match p with
          | Errors errors =>
              ok = false /\ errors <> []
              /\ forall feat msg,
                   dict_get errors feat = Some msg
                   <-> In feat (FEATURE_ORDER
                                  (enter (enter (opened sample_model) "age" "abc")
                                         "Medu" "college"))
                       /\ field_error
                            (enter (enter (opened sample_model) "age" "abc")
                                   "Medu" "college") feat = Some msg
          | Vector _ => ok = true
          end.
Proof.
  split; [vm_compute; reflexivity|].
  apply (errors_accumulate_over_all_fields
           (enter (enter (opened sample_model) "age" "abc") "Medu" "college")).
  vm_compute; reflexivity.
Defined.

Lemma categorical_choice_witness :
  dict_get (widget_vars (enter (opened sample_model) "Medu" "2 - 5th–9th")) "Medu"
  = Some (dropdown "2 - 5th–9th" education)
  /\ dict_get education "2 - 5th–9th" = Some (PyInt 2)
  /\ (exists values,
        gather_and_map_inputs (enter (opened sample_model) "Medu" "2 - 5th–9th")
        = Return (true, Vector values)
        /\ List.length values = 32%nat
        /\ nth_error values 6 = Some (PyInt 2))
  /\ (exists errors,
        gather_and_map_inputs (enter (opened sample_model) "Medu" "college")
        = Return (false, Errors errors)
        /\ dict_get errors "Medu" = Some "Choose a valid option")
  /\ (forall k v, In (k, v) education ->
        dict_get education k = Some v /\ v <> PyNone).
Proof.
  split; [vm_compute; reflexivity|]. split; [reflexivity|].
  split; [|split]; cycle 2.
  - destruct (categorical_choice_encodes_or_is_rejected
                (enter (opened sample_model) "Medu" "2 - 5th–9th")
                "Medu" "2 - 5th–9th" education) as (_ & _ & Hcatalog).
    + vm_compute; reflexivity.
    + vm_compute. do 6 right. left. reflexivity.
    + vm_compute; reflexivity.
    + apply (Hcatalog (proj2 (proj2 (enter_form_ok _ _ _))
                         (kinds_ok_opened sample_model))
                      "Mother's Education" education).
      unfold FIELD_INFO. do 6 right. left. reflexivity.
  - destruct (categorical_choice_encodes_or_is_rejected
                (enter (opened sample_model) "Medu" "2 - 5th–9th")
                "Medu" "2 - 5th–9th" education) as (Hkey & _ & _).
    + vm_compute; reflexivity.
    + vm_compute. do 6 right. left. reflexivity.
    + vm_compute; reflexivity.
    + destruct (Hkey (PyInt 2)) as (_ & Hvalues & _).
      * vm_compute; reflexivity.
      * discriminate.
      * destruct Hvalues as (values & Hrun & Hlen & Hat).
        { intros other Hin _. vm_compute in Hin.
          repeat (destruct Hin as [<-|Hin]; [vm_compute; reflexivity|]).
          destruct Hin. }
        exists values. split; [exact Hrun|]. split; [exact Hlen|].
        apply Hat. vm_compute; reflexivity.
  - destruct (categorical_choice_encodes_or_is_rejected
                (enter (opened sample_model) "Medu" "college")
                "Medu" "college" education) as (_ & Hnokey & _).
    + vm_compute; reflexivity.
    + vm_compute. do 6 right. left. reflexivity.
    + vm_compute; reflexivity.
    + destruct Hnokey as (errors & Hrun & Hmsg & _); [vm_compute; reflexivity|].
      exists errors. split; [exact Hrun|exact Hmsg].
Defined.

Lemma numeric_text_witness :
  (f <- float_ (PyStr "12.0") ;; PyFloat.int_of_float f) = Return 12
  /\ (exists values,
        gather_and_map_inputs (enter (opened sample_model) "absences" "12.0")
        = Return (true, Vector values)
        /\ List.length values = 32%nat
        /\ nth_error values 29 = Some (PyInt 12))
  /\ (exists errors,
        gather_and_map_inputs (enter (opened sample_model) "absences" "abc")
        = Return (false, Errors errors)
        /\ dict_get errors "absences" = Some "Enter a number")
  /\ (exists values,
        gather_and_map_inputs (enter (opened sample_model) "absences" "١٢")
        = Return (true, Vector values)
        /\ nth_error values 29 = Some (PyInt 12)).
Proof.
  split; [vm_compute; reflexivity|]. split; [|split]; cycle 2.
  - destruct (numeric_text_casts_or_is_rejected
                (enter (opened sample_model) "absences" "١٢")
                "absences" "١٢" 0 93) as (Hcast & _).
    + vm_compute; reflexivity.
    + vm_compute. do 29 right. left. reflexivity.
    + vm_compute; reflexivity.
    + destruct (Hcast 12) as (_ & Hvalues & _); [vm_compute; reflexivity|].
      destruct Hvalues as (values & Hrun & _ & Hat).
      { intros other Hin _. vm_compute in Hin.
        repeat (destruct Hin as [<-|Hin]; [vm_compute; reflexivity|]).
        destruct Hin. }
      exists values. split; [exact Hrun|].
      apply Hat. vm_compute; reflexivity.
  - destruct (numeric_text_casts_or_is_rejected
                (enter (opened sample_model) "absences" "12.0")
                "absences" "12.0" 0 93) as (Hcast & _).
    + vm_compute; reflexivity.
    + vm_compute. do 29 right. left. reflexivity.
    + vm_compute; reflexivity.
    + destruct (Hcast 12) as (_ & Hvalues & _); [vm_compute; reflexivity|].
      destruct Hvalues as (values & Hrun & Hlen & Hat).
      { intros other Hin _. vm_compute in Hin.
        repeat (destruct Hin as [<-|Hin]; [vm_compute; reflexivity|]).
        destruct Hin. }
      exists values. split; [exact Hrun|]. split; [exact Hlen|].
      apply Hat. vm_compute; reflexivity.
  - destruct (numeric_text_casts_or_is_rejected
                (enter (opened sample_model) "absences" "abc")
                "absences" "abc" 0 93) as (_ & Hraise & _).
    + vm_compute; reflexivity.
    + vm_compute. do 29 right. left. reflexivity.
    + vm_compute; reflexivity.
    + apply (Hraise ValueError). vm_compute; reflexivity.
Defined.

Lemma numeric_bounds_witness :
  dict_get (widget_vars (enter (opened sample_model) "age" "150")) "age"
  = Some (spin "150" 10 30)
  /\ exists values,
       gather_and_map_inputs (enter (opened sample_model) "age" "150")
       = Return (true, Vector values)
       /\ List.length values = 32%nat
       /\ nth_error values 2 = Some (PyInt 150).
Proof.
  split; [vm_compute; reflexivity|].
  destruct (numeric_bounds_are_not_enforced
              (enter (opened sample_model) "age" "150") "age" "150" 10 30 150)
    as (_ & Hvalues & _).
  - vm_compute; reflexivity.
  - vm_compute. do 2 right. left. reflexivity.
  - vm_compute; reflexivity.
  - vm_compute; reflexivity.
  - right. lia.
  - destruct Hvalues as (values & Hrun & Hlen & Hat).
    { intros other Hin _. vm_compute in Hin.
      repeat (destruct Hin as [<-|Hin]; [vm_compute; reflexivity|]).
      destruct Hin. }
    exists values. split; [exact Hrun|]. split; [exact Hlen|].
    apply Hat. vm_compute; reflexivity.
Defined.

Lemma safe_cast_int_never_raises_witness :
  safe_cast_int (PyStr "inf") = Return PyNone
  /\ safe_cast_int (PyStr "nan") = Return PyNone
  /\ exists errors,
       gather_and_map_inputs (enter (opened sample_model) "G1" "inf")
       = Return (false, Errors errors)
       /\ dict_get errors "G1" = Some "Enter a number".
Proof.
  destruct safe_cast_int_never_raises as (_ & Hinf & Hnan & Hbad & Hfield).
  split; [|split].
  - apply (Hbad (PyStr "inf") _ Hinf). right. now exists false.
  - apply (Hbad (PyStr "nan") _ Hnan). now left.
  - apply (Hfield (enter (opened sample_model) "G1" "inf") "G1" "inf" 0 20).
    + vm_compute; reflexivity.
    + vm_compute. do 30 right. left. reflexivity.
    + vm_compute; reflexivity.
    + vm_compute; reflexivity.
Defined.

Lemma fractional_text_witness :
  float_ (PyStr "17.9") = Return (S754_finite false 5038402083120742 (-48))
  /\ Z.quot (float_num false 5038402083120742 (-48)) (float_den (-48)) = 17
  /\ exists values,
       gather_and_map_inputs (enter (opened sample_model) "age" "17.9")
       = Return (true, Vector values)
       /\ List.length values = 32%nat
       /\ nth_error values 2 = Some (PyInt 17).
Proof.
  split; [vm_compute; reflexivity|]. split; [vm_compute; reflexivity|].
  destruct (fractional_text_is_truncated
              (enter (opened sample_model) "age" "17.9") "age" "17.9" 10 30
              false 5038402083120742 (-48))
    as (_ & (_ & Hvalues & _) & _).
  - vm_compute; reflexivity.
  - vm_compute. do 2 right. left. reflexivity.
  - vm_compute; reflexivity.
  - vm_compute; reflexivity.
  - vm_compute. discriminate.
  - destruct Hvalues as (values & Hrun & Hlen & Hat).
    { intros other Hin _. vm_compute in Hin.
      repeat (destruct Hin as [<-|Hin]; [vm_compute; reflexivity|]).
      destruct Hin. }
    exists values. split; [exact Hrun|]. split; [exact Hlen|].
    apply Hat. vm_compute; reflexivity.
Defined.

Lemma probability_failure_witness :
  exists g',
    predict_action (opened label_only_model) = Return g'
    /\ pred_var g' = "0 (Low stress)"
    /\ prob_var g' = "N/A"
    /\ dialogs g' = [].
Proof.
  refine (proj1 probability_failure_shows_NA (opened label_only_model)
                _ AttributeError 0 _ _ _ _).
  - vm_compute; reflexivity.
  - reflexivity.
  - reflexivity.
  - reflexivity.
Defined.

Lemma encoding_is_pure_witness :
  gather_and_map_inputs
    (try_except (predict_action (enter (opened sample_model) "age" "abc"))
                (opened sample_model))
  = gather_and_map_inputs (enter (opened sample_model) "age" "abc").
Proof.
  apply (proj2 encoding_is_pure (enter (opened sample_model) "age" "abc")).
  vm_compute; reflexivity.
Defined.


Lemma gather_raises_witness :
  exists pre feat post,
    FEATURE_ORDER (blank sample_model ["age"; "G1"]) = pre ++ feat :: post
    /\ forallb (has_widget (blank sample_model ["age"; "G1"])) pre = true
    /\ has_widget (blank sample_model ["age"; "G1"]) feat = false
    /\ gather_and_map_inputs (blank sample_model ["age"; "G1"])
       = Raise (KeyError feat).
Proof.
  apply (proj2 (gather_raises_only_for_a_missing_widget
                  (blank sample_model ["age"; "G1"]))).
  reflexivity.
Defined.

Lemma opening_form_validates_witness :
  desktop_FEATURE_ORDER
    (Loaded (JArray (map JString (REQUIRED_FEATURES ++ ["attendance"]))))
  = Return (JArray (map JString (REQUIRED_FEATURES ++ ["attendance"])))
  /\ names_of (JArray (map JString (REQUIRED_FEATURES ++ ["attendance"])))
     = Some (REQUIRED_FEATURES ++ ["attendance"])
  /\ exists g values,
       startup sample_model (REQUIRED_FEATURES ++ ["attendance"]) = Return g
       /\ FEATURE_ORDER g = REQUIRED_FEATURES ++ ["attendance"]
       /\ (forall f, In f REQUIRED_FEATURES ->
             In f (REQUIRED_FEATURES ++ ["attendance"]))
       /\ gather_and_map_inputs g = Return (true, Vector values)
       /\ List.length values = List.length (REQUIRED_FEATURES ++ ["attendance"]).
Proof.
  split; [vm_compute; reflexivity|]. split; [vm_compute; reflexivity|].
  apply (opening_form_validates sample_model
           (Loaded (JArray (map JString (REQUIRED_FEATURES ++ ["attendance"]))))
           (JArray (map JString (REQUIRED_FEATURES ++ ["attendance"])))
           (REQUIRED_FEATURES ++ ["attendance"]));
    vm_compute; reflexivity.
Defined.


Lemma clear_form_restores_witness :
  clear_form (type_in (opened sample_model)
                      [("age", "abc"); ("Medu", "4 - Higher"); ("age", "21")])
  = Return (opened sample_model).
Proof.
  apply (clear_form_restores_the_opening_state sample_model REQUIRED_FEATURES).
  vm_compute; reflexivity.
Defined.

Lemma clear_form_idempotent_witness :
  exists g',
    clear_form (enter (opened sample_model) "age" "abc") = Return g'
    /\ clear_form g' = Return g'
    /\ pred_var g' = pred_var (enter (opened sample_model) "age" "abc")
    /\ prob_var g' = prob_var (enter (opened sample_model) "age" "abc")
    /\ dialogs g' = dialogs (enter (opened sample_model) "age" "abc")
    /\ (forall k, has_widget (enter (opened sample_model) "age" "abc") k = true ->
                  dict_get (error_labels g') k = Some "").
Proof.
  apply (clear_form_is_idempotent_and_keeps_the_prediction
           (enter (opened sample_model) "age" "abc")).
  apply enter_clearable.
  apply (startup_clearable sample_model REQUIRED_FEATURES).
  vm_compute; reflexivity.
Defined.

Lemma invalid_input_witness :
  exists g',
    predict_action (enter (opened sample_model) "G2" "twelve") = Return g'
    /\ dialogs g' = dialogs (enter (opened sample_model) "G2" "twelve") ++ [InputError]
    /\ pred_var g' = pred_var (enter (opened sample_model) "G2" "twelve")
    /\ prob_var g' = prob_var (enter (opened sample_model) "G2" "twelve")
    /\ (forall feat,
          In feat (FEATURE_ORDER (enter (opened sample_model) "G2" "twelve")) ->
          dict_get (error_labels g') feat
          = Some match field_error (enter (opened sample_model) "G2" "twelve") feat with
                 | Some msg => msg
                 | None => ""
                 end).
Proof.
  apply (invalid_input_is_reported_field_by_field
           (enter (opened sample_model) "G2" "twelve"));
    vm_compute; reflexivity.
Defined.

Lemma prediction_failure_witness :
  exists g',
    predict_action (opened broken_model) = Return g'
    /\ dialogs g'
       = dialogs (opened broken_model)
           ++ [PredictionError (RuntimeError "shape mismatch")]
    /\ pred_var g' = pred_var (opened broken_model)
    /\ prob_var g' = prob_var (opened broken_model)
    /\ forall feat,
         dict_get (error_labels g') feat
         = option_map (fun _ => "") (dict_get (error_labels (opened broken_model)) feat).
Proof.
  refine (prediction_failure_is_reported (opened broken_model) _
            (RuntimeError "shape mismatch") _ _).
  - vm_compute; reflexivity.
  - right. split; reflexivity.
Defined.

Lemma predict_action_returns_witness :
  exists g',
    predict_action (enter (opened broken_model) "age" "") = Return g'
    /\ FEATURE_ORDER g' = FEATURE_ORDER (enter (opened broken_model) "age" "")
    /\ widget_vars g' = widget_vars (enter (opened broken_model) "age" "")
    /\ form_ok g' = true /\ labels_ok g' = true
    /\ (dialogs g' = dialogs (enter (opened broken_model) "age" "")
        \/ exists d, dialogs g' = dialogs (enter (opened broken_model) "age" "") ++ [d]).
Proof.
  apply (predict_action_returns_on_a_well_formed_form
           (enter (opened broken_model) "age" ""));
    vm_compute; reflexivity.
Defined.

Lemma streamlit_validation_witness :
  In "Missing G2" (validate_inputs [("age", PyInt 17)])
  /\ forall M M' order,
       st_submitted M order [("age", PyInt 17)]
       = [ st_error ("Validation errors: "
                     ++ String.concat "; " (validate_inputs [("age", PyInt 17)])) ]
       /\ st_submitted M order [("age", PyInt 17)]
          = st_submitted M' order [("age", PyInt 17)].
Proof.
  apply (proj2 (streamlit_validation_requires_every_feature [("age", PyInt 17)]) "G2").
  - unfold REQUIRED_FEATURES. do 31 right. left. reflexivity.
  - reflexivity.
Defined.

Lemma streamlit_form_witness :
  exists inputs shown,
    st_form untouched (removelast REQUIRED_FEATURES) = Return (inputs, shown)
    /\ dict_keys inputs = removelast REQUIRED_FEATURES
    /\ forall M,
         st_submitted M (removelast REQUIRED_FEATURES) inputs
         = [ st_error "Validation errors: Missing G2" ].
Proof.
  destruct (st_form untouched (removelast REQUIRED_FEATURES))
    as [[inputs shown]|] eqn:E; [|vm_compute in E; discriminate E].
  exists inputs, shown. split; [reflexivity|].
  destruct (streamlit_form_follows_the_order _ _ _ _ E) as (Hk & _ & _ & Hs).
  split; [exact Hk|]. intros M. rewrite (Hs "G2" M).
  - vm_compute in E. injection E as <- <-. reflexivity.
  - unfold REQUIRED_FEATURES. do 31 right. left. reflexivity.
  - vm_compute. intros H. repeat (destruct H as [H|H]; [discriminate H|]). exact H.
Defined.

Lemma streamlit_form_collects_witness :
  exists inputs shown,
    st_form some_answers ["school"; "age"; "G1"] = Return (inputs, shown)
    /\ forall f, In f ["school"; "age"; "G1"] ->
         exists v, dict_get inputs f = Some v
                   /\ match st_catalog_choices f with
                      | Some opts =>
                          exists sel,
                            selectbox some_answers f (dict_keys opts) = Some sel
                            /\ dict_get opts sel = Some v
                      | None => exists n, v = PyInt n
                      end.
Proof.
  apply (streamlit_form_collects_every_feature some_answers ["school"; "age"; "G1"]).
  - repeat constructor; simpl; intuition discriminate.
  - intros feat opts sel Hc. unfold some_answers. simpl.
    destruct (String.eqb feat "school") eqn:E; [|discriminate].
    apply String.eqb_eq in E. subst feat. vm_compute in Hc.
    injection Hc as <-. intros [= <-]. simpl. tauto.
Defined.

Lemma both_applications_witness :
  encoded_value (dropdown "no" yes_no) = Some (PyInt 0)
  /\ exists opts', st_catalog_choices "paid" = Some opts'
                   /\ dict_getitem opts' "no" = Return (PyInt 0).
Proof.
  apply (proj2 (both_applications_encode_alike "paid") yes_no "no" (PyInt 0)).
  - reflexivity.
  - reflexivity.
  - discriminate.
Defined.

Lemma complete_feature_order_witness :
  names_of (JArray (map JString ("attendance" :: rev REQUIRED_FEATURES)))
  = Some ("attendance" :: rev REQUIRED_FEATURES)
  /\ desktop_FEATURE_ORDER
       (Loaded (JArray (map JString ("attendance" :: rev REQUIRED_FEATURES))))
     = Return (JArray (map JString ("attendance" :: rev REQUIRED_FEATURES)))
  /\ (forall model,
        streamlit_load (Return model)
          (Loaded (JArray (map JString ("attendance" :: rev REQUIRED_FEATURES))))
        = Return (Running model
                    (JArray (map JString ("attendance" :: rev REQUIRED_FEATURES))) []))
  /\ (exists inputs,
        st_form untouched ("attendance" :: rev REQUIRED_FEATURES)
        = Return (inputs,
                  [ st_warning "Missing UI mapping for feature: attendance" ])
        /\ validate_inputs inputs = []).
Proof.
  split; [vm_compute; reflexivity|].
  destruct (complete_feature_order_is_used_as_written
              (map JString ("attendance" :: rev REQUIRED_FEATURES)))
    as (Hdesktop & Hload & Hform).
  { intros f Hf. apply in_map. right. now apply in_rev in Hf. }
  split; [exact Hdesktop|]. split; [exact Hload|].
  destruct (Hform ("attendance" :: rev REQUIRED_FEATURES))
    as (_ & Hshown & _ & _ & _); [vm_compute; reflexivity|].
  destruct (st_form untouched ("attendance" :: rev REQUIRED_FEATURES))
    as [[inputs shown]|] eqn:E; [|vm_compute in E; discriminate E].
  destruct (Hshown untouched inputs shown E) as [Hs Hv].
  exists inputs. split; [|exact Hv].
  rewrite Hs. vm_compute; reflexivity.
Defined.

Lemma streamlit_frame_witness :
  exists inputs shown,
    st_form some_answers ["school"; "age"] = Return (inputs, shown)
    /\ columns (DataFrame_of_dict inputs ["school"; "age"]) = ["school"; "age"]
    /\ row (DataFrame_of_dict inputs ["school"; "age"])
       = [Some (PyStr "MS"); Some (PyInt 19)].
Proof.
  exists [("school", PyStr "MS"); ("age", PyInt 19)], [].
  destruct (streamlit_frame_is_aligned some_answers ["school"; "age"]
              [("school", PyStr "MS"); ("age", PyInt 19)] [] eq_refl)
    as (Hc & Hr & _).
  split; [reflexivity|]. split; [exact Hc|exact Hr].
Defined.

Lemma streamlit_prediction_failure_witness :
  st_submitted broken_model []
    (map (fun f => (f, PyInt 0)) REQUIRED_FEATURES)
  = [ st_error_about "Prediction failed" (RuntimeError "shape mismatch");
      st_exception (RuntimeError "shape mismatch") ].
Proof.
  apply (streamlit_prediction_failure_shows_no_metric broken_model []
           (map (fun f => (f, PyInt 0)) REQUIRED_FEATURES)
           (RuntimeError "shape mismatch")); reflexivity.
Defined.

Lemma scalar_feature_order_witness :
  desktop_FEATURE_ORDER (Loaded (JInt 32)) = Return REQUIRED_FEATURES_copy
  /\ forall model, streamlit_load (Return model) (Loaded (JInt 32)) = Raise TypeError.
Proof. apply (scalar_feature_order_file (JInt 32)). exact I. Defined.
